(** * journalist_app/admin.py: the admin blueprint of the journalist interface

    A shallow embedding of the route handlers of [make_blueprint] as
    state-passing functions with exceptions, over a small model of the
    three things the handlers talk to: the request ([request], [g]), the
    SQLAlchemy session ([db.session], [Journalist.query]) and the Flask
    side channels ([flash], [current_app.logger]).

    Embedded: [add_user], [new_user_two_factor], [reset_two_factor_hotp],
    [edit_user], [set_password], [delete_user] and [new_password]. *)

From Stdlib Require Import ZArith List String Ascii Bool Lia.
From Stdlib Require Import DecimalString DecimalZ DecimalPos.
Import ListNotations.

Local Open Scope string_scope.
Local Open Scope Z_scope.

(** ** Python values that reach the handlers *)

Inductive pyval :=
| PNone
| PInt (z : Z)
| PStr (s : string).

(** [str(x)] for the values above; integers print in decimal. *)
Definition str_of_Z (z : Z) : string := NilZero.string_of_int (Z.to_int z).

Definition py_str (v : pyval) : string :=
  match v with
  | PNone => "None"
  | PInt z => str_of_Z z
  | PStr s => s
  end.

(** [needle in hay] on strings. *)
Definition contains (needle hay : string) : bool :=
  match String.index 0 needle hay with
  | Some _ => true
  | None => false
  end.

(** Truth value of an optional form field: [None] and [''] are falsy. *)
Definition truthy (v : option string) : bool :=
  match v with
  | None => false
  | Some s => negb (String.eqb s EmptyString)
  end.

Fixpoint assoc (k : string) (l : list (string * string)) : option string :=
  match l with
  | [] => None
  | (k', v) :: tl => if String.eqb k k' then Some v else assoc k tl
  end.

(** ** Accounts *)

(** A [Journalist] object.  [id] is [None] until the row is inserted. *)
Record Journalist := mkJournalist {
  id : option Z;
  username : string;
  pw_hash : string;
  is_admin : bool;
  is_totp : bool;
  otp_secret : string;
  hotp_counter : Z
}.

Definition set_id (k : Z) (j : Journalist) : Journalist :=
  mkJournalist (Some k) (username j) (pw_hash j) (is_admin j) (is_totp j)
               (otp_secret j) (hotp_counter j).

Definition set_username (u : string) (j : Journalist) : Journalist :=
  mkJournalist (id j) u (pw_hash j) (is_admin j) (is_totp j)
               (otp_secret j) (hotp_counter j).

Definition set_pw_hash (h : string) (j : Journalist) : Journalist :=
  mkJournalist (id j) (username j) h (is_admin j) (is_totp j)
               (otp_secret j) (hotp_counter j).

Definition set_is_admin (b : bool) (j : Journalist) : Journalist :=
  mkJournalist (id j) (username j) (pw_hash j) b (is_totp j)
               (otp_secret j) (hotp_counter j).

Definition has_id (k : Z) (j : Journalist) : bool :=
  match id j with
  | Some i => Z.eqb i k
  | None => false
  end.

(** [k == j.id] for an [int] [k] *)
Definition int_eq (k : Z) (i : option Z) : bool :=
  match i with
  | Some i' => Z.eqb k i'
  | None => false
  end.

Definition has_username (u : string) (j : Journalist) : bool :=
  String.eqb (username j) u.

(** ** Requests and responses *)

(** What a handler reads: [request.method], [request.form],
    [request.args] and the logged-in admin [g.user]. *)
Record Request := mkRequest {
  method : string;
  form : list (string * string);
  args : list (string * string);
  g_user : Journalist
}.

Inductive ctxval :=
| CStr (s : string)
| CUser (u : option Journalist)
| CForm (fields : list (string * string)).

Inductive response :=
| render_template (template : string) (context : list (string * ctxval))
| redirect (location : string).

Inductive exn :=
| PasswordError
| InvalidUsernameException (msg : string)
| IntegrityError (msg : string)
| TypeError (msg : string)
| AttributeError (msg : string)
| NoResultFound
| MultipleResultsFound
| BadRequestKeyError (key : string)
| HTTPException (code : Z).

Inductive result (A : Type) :=
| Ok (a : A)
| Raise (e : exn).
Arguments Ok {A} a.
Arguments Raise {A} e.

(** The status line the client sees: [abort(c)] and a missing form key
    carry their own code, any other uncaught exception is a 500. *)
Definition http_status (r : result response) : Z :=
  match r with
  | Ok (render_template _ _) => 200
  | Ok (redirect _) => 302
  | Raise (HTTPException c) => c
  | Raise (BadRequestKeyError _) => 400
  | Raise _ => 500
  end.

(** ** The world a request runs in *)

(** Calls made on the persistence layer, in order. *)
Inductive call :=
| Query_get (key : pyval)
| Query_filter_by_username (u : string)
| Session_add
| Session_delete
| Session_commit
| Session_rollback.

(** [table] is the committed [journalists] table.  [objects] is the heap of
    [Journalist] objects of this request, a reference being an index into
    it: objects with an [id] are the session's identity map, [pending_new]
    are the references passed to [db.session.add] and not yet inserted,
    [pending_deleted] those passed to [db.session.delete]. *)
Record St := mkSt {
  table : list Journalist;
  objects : list Journalist;
  pending_new : list nat;
  pending_deleted : list nat;
  flashes : list (string * string);
  log : list string;
  rng : nat;
  calls : list call
}.

Definition with_table (t : list Journalist) (st : St) : St :=
  mkSt t (objects st) (pending_new st) (pending_deleted st) (flashes st)
       (log st) (rng st) (calls st).

Definition with_objects (o : list Journalist) (st : St) : St :=
  mkSt (table st) o (pending_new st) (pending_deleted st) (flashes st)
       (log st) (rng st) (calls st).

Definition with_pending (n d : list nat) (st : St) : St :=
  mkSt (table st) (objects st) n d (flashes st) (log st) (rng st) (calls st).

Definition with_flashes (f : list (string * string)) (st : St) : St :=
  mkSt (table st) (objects st) (pending_new st) (pending_deleted st) f
       (log st) (rng st) (calls st).

Definition with_log (l : list string) (st : St) : St :=
  mkSt (table st) (objects st) (pending_new st) (pending_deleted st)
       (flashes st) l (rng st) (calls st).

Definition with_rng (n : nat) (st : St) : St :=
  mkSt (table st) (objects st) (pending_new st) (pending_deleted st)
       (flashes st) (log st) n (calls st).

Definition with_calls (c : list call) (st : St) : St :=
  mkSt (table st) (objects st) (pending_new st) (pending_deleted st)
       (flashes st) (log st) (rng st) c.

(** A request starts with an empty session and an empty call record. *)
Definition fresh (st : St) : Prop :=
  objects st = [] /\ pending_new st = [] /\ pending_deleted st = [] /\
  calls st = [].

(** ** The handler monad: state and exceptions *)

Definition M (A : Type) : Type := St -> result A * St.

Definition ret {A} (a : A) : M A := fun st => (Ok a, st).

Definition raise {A} (e : exn) : M A := fun st => (Raise e, st).

Definition bind {A B} (m : M A) (f : A -> M B) : M B :=
  fun st =>
    match m st with
    | (Ok a, st') => f a st'
    | (Raise e, st') => (Raise e, st')
    end.

Notation "x <- m ;; k" := (bind m (fun x => k))
  (at level 61, m at next level, right associativity).
Notation "m ;;; k" := (bind m (fun _ => k))
  (at level 61, right associativity).

(** [try: body except ...: handler(e)]; [handler e = None] when no
    [except] clause matches, and the exception goes on. *)
Definition try_except {A} (body : M A) (handler : exn -> option (M A)) : M A :=
  fun st =>
    match body st with
    | (Ok a, st') => (Ok a, st')
    | (Raise e, st') =>
        match handler e with
        | Some h => h st'
        | None => (Raise e, st')
        end
    end.

(** [try: body except ...: handler(e) else: orelse]. *)
Definition try_except_else {A B} (body : M A)
    (handler : exn -> option (M B)) (orelse : A -> M B) : M B :=
  fun st =>
    match body st with
    | (Ok a, st') => orelse a st'
    | (Raise e, st') =>
        match handler e with
        | Some h => h st'
        | None => (Raise e, st')
        end
    end.

Definition abort {A} (code : Z) : M A := raise (HTTPException code).

Definition flash (message category : string) : M unit :=
  fun st => (Ok tt, with_flashes (flashes st ++ [(message, category)]) st).

Definition logger_error (message : string) : M unit :=
  fun st => (Ok tt, with_log (log st ++ [message]) st).

Definition record_call (c : call) (st : St) : St :=
  with_calls (calls st ++ [c]) st.

(** [request.form[k]] / [request.args[k]]: a missing key is a 400. *)
Definition getitem (d : list (string * string)) (k : string) : M string :=
  match assoc k d with
  | Some v => ret v
  | None => raise (BadRequestKeyError k)
  end.

(** Attribute access through a variable that may hold [None]. *)
Definition deref (user : option nat) (attr : string) : M (nat * Journalist) :=
  fun st =>
    match user with
    | None =>
        (Raise (AttributeError
                  ("'NoneType' object has no attribute '" ++ attr ++ "'")), st)
    | Some r =>
        match nth_error (objects st) r with
        | Some j => (Ok (r, j), st)
        | None => (Raise (AttributeError attr), st)
        end
    end.

Fixpoint replace_nth {A} (n : nat) (x : A) (l : list A) : list A :=
  match l, n with
  | [], _ => []
  | _ :: tl, O => x :: tl
  | h :: tl, S n' => h :: replace_nth n' x tl
  end.

(** [user.attr = v]: the object is updated in place, so the session sees
    it at the next flush. *)
Definition setattr (user : option nat) (attr : string)
    (f : Journalist -> Journalist) : M unit :=
  p <- deref user attr ;;
  fun st => (Ok tt, with_objects (replace_nth (fst p) (f (snd p)) (objects st)) st).

(** ** The persistence layer

    A model of the SQLAlchemy session the handlers use through
    [db.session] and [Journalist.query].  Queries read the committed table
    (the handlers query before they modify anything, so autoflush has
    nothing to send); [commit] flushes the session in one step and checks
    the [UNIQUE] constraint on [journalists.username] on the result. *)

(** Primary keys arrive as [int] (route converter) or as text (form and
    query-string fields), which the database compares as a number.  Text
    is read here as a decimal numeral only; other text the database would
    still take for a number (a leading blank, a fraction part) is outside
    the model, and the theorems about a text uid assume [pk_of] reads it. *)
Definition pk_of (key : pyval) : option Z :=
  match key with
  | PNone => None
  | PInt z => Some z
  | PStr s => option_map Z.of_int (NilZero.int_of_string s)
  end.

Fixpoint find_index {A} (p : A -> bool) (l : list A) : option nat :=
  match l with
  | [] => None
  | x :: tl => if p x then Some O else option_map S (find_index p tl)
  end.

(** Bring the row with primary key [k] into the session and hand out the
    reference to its object; the identity map is consulted first. *)
Definition load (k : Z) : M (option nat) :=
  fun st =>
    match find_index (has_id k) (objects st) with
    | Some r => (Ok (Some r), st)
    | None =>
        match find (has_id k) (table st) with
        | Some row =>
            (Ok (Some (List.length (objects st))),
             with_objects (objects st ++ [row]) st)
        | None => (Ok None, st)
        end
    end.

(** [Journalist.query.get(key)]: the object, or [None] when no row has
    that primary key.  A missing row is not an exception: [delete_user]
    tests the result and takes its [else] branch for it.  The model covers
    the keys the database can hold, signed 64-bit integers: for an [int]
    outside that range the driver raises [OverflowError] before any row is
    looked at, which is not modelled, so a theorem about the lookup of an
    arbitrary [int] states the range. *)
Definition Journalist_query_get (key : pyval) : M (option nat) :=
  fun st =>
    let st := record_call (Query_get key) st in
    match pk_of key with
    | None => (Ok None, st)
    | Some k => load k st
    end.

(** [Journalist.query.filter_by(username=u).one_or_none()]. *)
Definition Journalist_query_filter_by_username_one_or_none (u : string)
  : M (option nat) :=
  fun st =>
    let st := record_call (Query_filter_by_username u) st in
    match filter (has_username u) (table st) with
    | [] => (Ok None, st)
    | [row] =>
        match id row with
        | Some k => load k st
        | None => (Ok None, st)
        end
    | _ => (Raise MultipleResultsFound, st)
    end.

Definition db_session_add (r : nat) : M unit :=
  fun st =>
    let st := record_call Session_add st in
    match nth_error (objects st) r with
    | Some o =>
        match id o with
        | None =>
            if existsb (Nat.eqb r) (pending_new st) then (Ok tt, st)
            else (Ok tt, with_pending (pending_new st ++ [r])
                                      (pending_deleted st) st)
        | Some _ => (Ok tt, st)
        end
    | None => (Ok tt, st)
    end.

Definition db_session_delete (r : nat) : M unit :=
  fun st =>
    let st := record_call Session_delete st in
    (Ok tt, with_pending (pending_new st) (pending_deleted st ++ [r]) st).

(** The three parts of a flush. *)
Definition apply_updates (objs t : list Journalist) : list Journalist :=
  map (fun row =>
         match id row with
         | Some k =>
             match find (has_id k) objs with
             | Some o => o
             | None => row
             end
         | None => row
         end) t.

Definition deleted_ids (objs : list Journalist) (refs : list nat) : list Z :=
  flat_map (fun r =>
              match nth_error objs r with
              | Some o =>
                  match id o with
                  | Some k => [k]
                  | None => []
                  end
              | None => []
              end) refs.

Definition apply_deletes (ids : list Z) (t : list Journalist)
  : list Journalist :=
  filter (fun row => negb (existsb (fun k => has_id k row) ids)) t.

(** The next row id: one more than the largest in use. *)
Definition fresh_id (t : list Journalist) : Z :=
  1 + fold_right (fun j m =>
                    match id j with
                    | Some i => Z.max i m
                    | None => m
                    end) 0 t.

Fixpoint apply_inserts (refs : list nat) (objs t : list Journalist)
  : list Journalist * list Journalist :=
  match refs with
  | [] => (objs, t)
  | r :: tl =>
      match nth_error objs r with
      | Some o =>
          let o' := set_id (fresh_id t) o in
          apply_inserts tl (replace_nth r o' objs) (t ++ [o'])
      | None => apply_inserts tl objs t
      end
  end.

Fixpoint unique (l : list string) : bool :=
  match l with
  | [] => true
  | x :: tl => negb (existsb (String.eqb x) tl) && unique tl
  end.

Definition unique_failed : string :=
  "(sqlite3.IntegrityError) UNIQUE constraint failed: journalists.username".

(** [db.session.commit()]: on a constraint violation the table stays as it
    was and the session keeps its pending state until [rollback]. *)
Definition db_session_commit : M unit :=
  fun st =>
    let st := record_call Session_commit st in
    let t1 := apply_deletes (deleted_ids (objects st) (pending_deleted st))
                            (apply_updates (objects st) (table st)) in
    let (objs, t2) := apply_inserts (pending_new st) (objects st) t1 in
    if unique (map username t2)
    then (Ok tt, with_pending [] [] (with_objects objs (with_table t2 st)))
    else (Raise (IntegrityError unique_failed), st).

Definition refresh (t : list Journalist) (o : Journalist) : Journalist :=
  match id o with
  | Some k =>
      match find (has_id k) t with
      | Some row => row
      | None => o
      end
  | None => o
  end.

(** [db.session.rollback()]: pending work is dropped and loaded objects
    go back to their rows. *)
Definition db_session_rollback : M unit :=
  fun st =>
    let st := record_call Session_rollback st in
    (Ok tt, with_pending [] [] (with_objects (map (refresh (table st))
                                                  (objects st)) st)).

(** [db.session.is_modified(user)] *)
Definition db_session_is_modified (r : nat) : M bool :=
  fun st =>
    match nth_error (objects st) r with
    | Some o =>
        match id o with
        | Some k =>
            match find (has_id k) (table st) with
            | Some row =>
                (Ok (negb (String.eqb (username o) (username row)
                           && String.eqb (pw_hash o) (pw_hash row)
                           && Bool.eqb (is_admin o) (is_admin row)
                           && Bool.eqb (is_totp o) (is_totp row)
                           && String.eqb (otp_secret o) (otp_secret row)
                           && Z.eqb (hotp_counter o) (hotp_counter row))), st)
            | None => (Ok false, st)
            end
        | None => (Ok false, st)
        end
    | None => (Ok false, st)
    end.

(** The object behind a variable as a template sees it. *)
Definition snapshot (user : option nat) : M (option Journalist) :=
  fun st =>
    match user with
    | Some r => (Ok (nth_error (objects st) r), st)
    | None => (Ok None, st)
    end.

(** ** Routes *)

Definition pyid (i : option Z) : pyval :=
  match i with
  | Some k => PInt k
  | None => PNone
  end.

Fixpoint lookup_value (k : string) (l : list (string * pyval)) : pyval :=
  match l with
  | [] => PNone
  | (k', v) :: tl => if String.eqb k k' then v else lookup_value k tl
  end.

(** [url_for] over the rules of this blueprint, relative to its prefix:
    values that are not path variables go to the query string, written as
    they are (the percent-encoding of query values is not modelled). *)
Definition url_for (endpoint : string) (values : list (string * pyval))
  : string :=
  if String.eqb endpoint "admin.index" then "/"
  else if String.eqb endpoint "admin.manage_config" then "/config"
  else if String.eqb endpoint "admin.new_user_two_factor"
       then "/2fa?uid=" ++ py_str (lookup_value "uid" values)
  else if String.eqb endpoint "admin.edit_user"
       then "/edit/" ++ py_str (lookup_value "user_id" values)
  else endpoint.

(** ** Collaborators outside this file

    [models.Journalist], [journalist_app.forms] and [journalist_app.utils]
    are imported by admin.py.  Their policies are kept abstract: the
    handlers are defined, and the theorems proved, for any choice of them. *)

Record Collaborators := mkCollaborators {
  (** [NewUserForm().validate_on_submit()] *)
  validate_on_submit : Request -> bool;
  (** [Journalist.check_username_acceptable]: the complaint, if any *)
  username_complaint : string -> option string;
  (** the password policy behind [PasswordError] *)
  password_acceptable : string -> bool;
  hash_password : string -> string;
  (** the stored form of a hexadecimal HOTP secret *)
  b32_of_hex : string -> string;
  (** a new random TOTP secret, drawn with the given entropy *)
  random_base32 : nat -> string;
  (** [Journalist.verify_token] *)
  token_ok : Journalist -> string -> bool;
  (** [make_password(config)], drawn with the given entropy *)
  diceware : nat -> string
}.

Definition is_hex_digit (c : ascii) : bool :=
  let n := nat_of_ascii c in
  ((48 <=? n) && (n <=? 57) || (65 <=? n) && (n <=? 70)
   || (97 <=? n) && (n <=? 102))%nat.

Fixpoint all_hex (s : string) : bool :=
  match s with
  | EmptyString => true
  | String c tl => is_hex_digit c && all_hex tl
  end.

(** Modelled from the spec: the hexadecimal check of
    [Journalist.set_hotp_secret] (models.py is not among the sources).  The
    secret must be well-formed hexadecimal of even length; the two ways of
    being malformed are told apart by the message the handler looks for. *)
Definition unhexlify_error (s : string) : option string :=
  if Nat.odd (String.length s) then Some "Odd-length string"
  else if all_hex s then None
  else Some "Non-hexadecimal digit found".

Section Admin.

Variable C : Collaborators.

Definition draw {A} (f : nat -> A) : M A :=
  fun st => (Ok (f (rng st)), with_rng (S (rng st)) st).

(** [make_password(config)] *)
Definition make_password : M string := draw (diceware C).

(** [Journalist.check_username_acceptable(username)] *)
Definition check_username_acceptable (u : string) : M unit :=
  match username_complaint C u with
  | Some msg => raise (InvalidUsernameException msg)
  | None => ret tt
  end.

(** Modelled from the spec: [Journalist.set_hotp_secret] (models.py).  A
    malformed secret raises before the account is touched; a well-formed
    one switches the account to HOTP with that secret. *)
Definition set_hotp_secret (user : option nat) (secret : string) : M unit :=
  p <- deref user "set_hotp_secret" ;;
  match unhexlify_error secret with
  | Some msg => raise (TypeError msg)
  | None =>
      setattr user "otp_secret"
        (fun j => mkJournalist (id j) (username j) (pw_hash j) (is_admin j)
                               false (b32_of_hex C secret) 0)
  end.

(** Modelled from the spec: [Journalist.set_password] (models.py): the
    password policy, then the hash. *)
Definition Journalist_set_password (user : option nat)
    (password : option string) : M unit :=
  p <- deref user "set_password" ;;
  match password with
  | None => raise (TypeError "object of type 'NoneType' has no len()")
  | Some pw =>
      if password_acceptable C pw
      then setattr user "pw_hash" (set_pw_hash (hash_password C pw))
      else raise PasswordError
  end.

(** Modelled from the spec: the constructor [Journalist(username, password,
    is_admin, otp_secret)] (models.py).  The username and the password go
    through their policies; an account is TOTP with a random secret unless
    an HOTP secret is given. *)
Definition Journalist_init (u password : string) (adm : bool)
    (otp : option string) : M nat :=
  check_username_acceptable u ;;;
  (if password_acceptable C password then ret tt else raise PasswordError) ;;;
  secret <- draw (random_base32 C) ;;
  new <- (fun st =>
            (Ok (List.length (objects st)),
             with_objects
               (objects st ++
                  [mkJournalist None u (hash_password C password) adm true
                                secret 0]) st)) ;;
  (if truthy otp
   then set_hotp_secret (Some new) (match otp with
                                    | Some s => s
                                    | None => EmptyString
                                    end)
   else ret tt) ;;;
  ret new.

(** Modelled from the spec: [Journalist.verify_token] (models.py): the
    token is checked against the account's OTP configuration, for which
    [token_ok] stands, and a rejected token changes nothing.  What an
    accepted token does to the account is not modelled. *)
Definition verify_token (user : option nat) (token : string) : M bool :=
  p <- deref user "verify_token" ;;
  ret (token_ok C (snd p) token).

(** Modelled from the spec: [commit_account_changes] (journalist_app/utils.py):
    a modified account is committed; a persistence error is rolled back,
    logged, and reported with a generic message. *)
Definition commit_account_changes (user : option nat) : M unit :=
  p <- deref user "username" ;;
  modified <- db_session_is_modified (fst p) ;;
  if modified then
    try_except_else
      (db_session_add (fst p) ;;; db_session_commit)
      (fun e =>
         Some (flash ("An unexpected error occurred! "
                      ++ "Please inform your administrator.") "error" ;;;
               logger_error ("Account changes for '" ++ username (snd p)
                             ++ "' failed") ;;;
               db_session_rollback))
      (fun _ => flash "Account updated." "success")
  else ret tt.

(** Modelled from the spec: [set_diceware_password]
    (journalist_app/utils.py): hashing and validation are the account's; a
    rejected password and a failed commit are reported, not raised. *)
Definition set_diceware_password (user : option nat)
    (password : option string) : M unit :=
  rejected <- try_except
    (Journalist_set_password user password ;;; ret false)
    (fun e =>
       match e with
       | PasswordError =>
           Some (flash ("You submitted a bad password! "
                        ++ "Password not changed.") "error" ;;; ret true)
       | _ => None
       end) ;;
  if rejected then ret tt
  else
    try_except_else db_session_commit
      (fun e =>
         Some (flash ("There was an error, and the new password might not "
                      ++ "have been saved correctly.") "error" ;;;
               logger_error "Failed to update a valid password."))
      (fun _ => flash "Password updated." "success").

(** ** The handlers of admin.py

    [gettext] is the identity (the source locale).  A [return] inside a
    branch is modelled by the branch yielding [Some response]. *)

Definition username_in_use : string := "That username is already in use".

(** [add_user], lines 45-94 *)
Definition add_user (req : Request) : M response :=
  let page :=
    password <- make_password ;;
    ret (render_template "admin_add_user.html"
           [("password", CStr password); ("form", CForm (form req))]) in
  if validate_on_submit C req then
    username_ <- getitem (form req) "username" ;;
    password <- getitem (form req) "password" ;;
    let is_admin_ := truthy (assoc "is_admin" (form req)) in
    outcome <- try_except
      (let otp_secret_ :=
         if truthy (assoc "is_hotp" (form req))
         then Some (match assoc "otp_secret" (form req) with
                    | Some s => s
                    | None => EmptyString
                    end)
         else None in
       new_user <- Journalist_init username_ password is_admin_ otp_secret_ ;;
       db_session_add new_user ;;;
       db_session_commit ;;;
       ret (true, Some new_user))
      (fun e =>
         match e with
         | PasswordError =>
             Some (flash ("There was an error with the autogenerated "
                          ++ "password. User not created. Please try again.")
                         "error" ;;;
                   ret (false, None))
         | InvalidUsernameException msg =>
             Some (flash ("Invalid username: " ++ msg) "error" ;;;
                   ret (false, None))
         | IntegrityError msg =>
             Some (db_session_rollback ;;;
                   (if contains "UNIQUE constraint failed: journalists.username"
                                msg
                    then flash username_in_use "error"
                    else
                      flash ("An error occurred saving this user to the "
                             ++ "database. Please inform your administrator.")
                            "error" ;;;
                      logger_error ("Adding user '" ++ username_
                                    ++ "' failed: " ++ msg)) ;;;
                   ret (false, None))
         | _ => None
         end) ;;
    if fst outcome then
      p <- deref (snd outcome) "id" ;;
      ret (redirect (url_for "admin.new_user_two_factor"
                             [("uid", pyid (id (snd p)))]))
    else page
  else page.

(** [new_user_two_factor], lines 96-115 *)
Definition new_user_two_factor (req : Request) : M response :=
  uid <- getitem (args req) "uid" ;;
  user <- Journalist_query_get (PStr uid) ;;
  returned <-
    (if String.eqb (method req) "POST" then
       token <- getitem (form req) "token" ;;
       ok <- verify_token user token ;;
       if ok then
         p <- deref user "username" ;;
         flash ("Token in two-factor authentication accepted for user "
                ++ username (snd p) ++ ".") "notification" ;;;
         ret (Some (redirect (url_for "admin.index" [])))
       else
         flash "Could not verify token in two-factor authentication." "error" ;;;
         ret None
     else ret None) ;;
  match returned with
  | Some r => ret r
  | None =>
      u <- snapshot user ;;
      ret (render_template "admin_new_user_two_factor.html"
                           [("user", CUser u)])
  end.

Definition non_hex_message : string :=
  "Invalid secret format: please only submit letters A-F and numbers 0-9.".

Definition odd_length_message : string :=
  "Invalid secret format: odd-length secret. Did you mistype the secret?".

(** [reset_two_factor_hotp], lines 127-159 *)
Definition reset_two_factor_hotp (req : Request) : M response :=
  uid <- getitem (form req) "uid" ;;
  let otp_secret_ := assoc "otp_secret" (form req) in
  if truthy otp_secret_ then
    let secret := match otp_secret_ with
                  | Some s => s
                  | None => EmptyString
                  end in
    user <- Journalist_query_get (PStr uid) ;;
    try_except_else
      (set_hotp_secret user secret)
      (fun e =>
         match e with
         | TypeError msg =>
             Some ((if contains "Non-hexadecimal digit found" msg
                    then flash non_hex_message "error"
                    else if contains "Odd-length string" msg
                    then flash odd_length_message "error"
                    else
                      flash ("An unexpected error occurred! "
                             ++ "Please inform your administrator.") "error" ;;;
                      logger_error ("set_hotp_secret '" ++ secret ++ "' (id "
                                    ++ uid ++ ") failed: " ++ msg)) ;;;
                   ret (render_template "admin_edit_hotp_secret.html"
                                        [("uid", CStr uid)]))
         | _ => None
         end)
      (fun _ =>
         db_session_commit ;;;
         ret (redirect (url_for "admin.new_user_two_factor"
                                [("uid", PStr uid)])))
  else
    ret (render_template "admin_edit_hotp_secret.html" [("uid", CStr uid)]).

Definition dquote : string := String (ascii_of_nat 34) EmptyString.

Definition username_taken (u : string) : string :=
  "Username " ++ dquote ++ u ++ dquote ++ " already taken.".

(** [edit_user], lines 161-196 *)
Definition edit_user (user_id : Z) (req : Request) : M response :=
  user <- Journalist_query_get (PInt user_id) ;;
  returned <-
    (if String.eqb (method req) "POST" then
       returned <-
         (if truthy (assoc "username" (form req)) then
            new_username <- getitem (form req) "username" ;;
            returned <- try_except
              (check_username_acceptable new_username ;;; ret None)
              (fun e =>
                 match e with
                 | InvalidUsernameException msg =>
                     Some (flash ("Invalid username: " ++ msg) "error" ;;;
                           ret (Some (redirect
                                        (url_for "admin.edit_user"
                                                 [("user_id", PInt user_id)]))))
                 | _ => None
                 end) ;;
            match returned with
            | Some r => ret (Some r)
            | None =>
                p <- deref user "username" ;;
                if String.eqb new_username (username (snd p)) then ret None
                else
                  other <- Journalist_query_filter_by_username_one_or_none
                             new_username ;;
                  match other with
                  | Some _ =>
                      flash (username_taken new_username) "error" ;;;
                      ret (Some (redirect
                                   (url_for "admin.edit_user"
                                            [("user_id", PInt user_id)])))
                  | None =>
                      setattr user "username" (set_username new_username) ;;;
                      ret None
                  end
            end
          else ret None) ;;
       match returned with
       | Some r => ret (Some r)
       | None =>
           setattr user "is_admin"
                   (set_is_admin (truthy (assoc "is_admin" (form req)))) ;;;
           commit_account_changes user ;;;
           ret None
       end
     else ret None) ;;
  match returned with
  | Some r => ret r
  | None =>
      password <- make_password ;;
      u <- snapshot user ;;
      ret (render_template "edit_account.html"
                           [("user", CUser u); ("password", CStr password)])
  end.

(** [set_password], lines 198-208 *)
Definition set_password (user_id : Z) (req : Request) : M response :=
  user <- try_except
    (Journalist_query_get (PInt user_id))
    (fun e =>
       match e with
       | NoResultFound => Some (abort 404)
       | _ => None
       end) ;;
  let password := assoc "password" (form req) in
  set_diceware_password user password ;;;
  ret (redirect (url_for "admin.edit_user" [("user_id", PInt user_id)])).

(** [delete_user], lines 210-231 *)
Definition delete_user (user_id : Z) (req : Request) : M response :=
  user <- Journalist_query_get (PInt user_id) ;;
  (if int_eq user_id (id (g_user req)) then
     logger_error ("Admin " ++ username (g_user req)
                   ++ " tried to delete itself") ;;;
     abort 403
   else
     match user with
     | Some r =>
         db_session_delete r ;;;
         db_session_commit ;;;
         p <- deref user "username" ;;
         flash ("Deleted user '" ++ username (snd p) ++ "'") "notification"
     | None =>
         logger_error ("Admin " ++ username (g_user req)
                       ++ " tried to delete nonexistent user with pk="
                       ++ str_of_Z user_id) ;;;
         abort 404
     end) ;;;
  ret (redirect (url_for "admin.index" [])).

(** [new_password], lines 233-243 *)
Definition new_password (user_id : Z) (req : Request) : M response :=
  user <- try_except
    (Journalist_query_get (PInt user_id))
    (fun e =>
       match e with
       | NoResultFound => Some (abort 404)
       | _ => None
       end) ;;
  let password := assoc "password" (form req) in
  set_diceware_password user password ;;;
  ret (redirect (url_for "admin.edit_user" [("user_id", PInt user_id)])).

End Admin.

(** ** A concrete choice of collaborators *)

(** Modelled from the spec: one account service and form validator within
    the spec's words (usernames and passwords are policy-constrained, the
    form checks basic constraints); used to run the handlers on concrete
    requests. *)
Definition service : Collaborators :=
  mkCollaborators
    (fun req => String.eqb (method req) "POST"
                && truthy (assoc "username" (form req)))
    (fun u => if (String.length u <? 3)%nat
              then Some "must be at least 3 characters long"
              else None)
    (fun pw => negb (String.eqb pw EmptyString))
    (fun pw => "scrypt:" ++ pw)
    (fun hex => "b32:" ++ hex)
    (fun n => "JBSWY3DPEHPK3PXP")
    (fun j token => String.eqb token ("otp:" ++ otp_secret j))
    (fun n => "correct horse battery staple profanity oboe outlast").

Definition admin : Journalist :=
  mkJournalist (Some 1) "root" "scrypt:r" true true "AAAA" 0.

Definition alice : Journalist :=
  mkJournalist (Some 2) "alice" "scrypt:a" false true "BBBB" 0.

Definition st0 (t : list Journalist) : St := mkSt t [] [] [] [] [] O [].

Definition post (f a : list (string * string)) : Request :=
  mkRequest "POST" f a admin.

(** Requests used as examples below. *)

Definition no_uid : Request := post [("otp_secret", EmptyString)] [].

Definition duplicate_with_bad_password : Request :=
  post [("username", "alice"); ("password", EmptyString)] [].

Definition with_stray_secret : Request :=
  post [("username", "alice"); ("password", "x"); ("otp_secret", "deadbeef")]
       [].

(** ** The other handlers of admin.py *)

Definition set_is_totp (b : bool) (j : Journalist) : Journalist :=
  mkJournalist (id j) (username j) (pw_hash j) (is_admin j) b
               (otp_secret j) (hotp_counter j).

Definition set_otp_secret (s : string) (j : Journalist) : Journalist :=
  mkJournalist (id j) (username j) (pw_hash j) (is_admin j) (is_totp j)
               s (hotp_counter j).

Section AdminRest.

Variable C : Collaborators.

(** Modelled from the spec: [Journalist.regenerate_totp_shared_secret]
    (models.py): the account gets a new random shared secret. *)
Definition regenerate_totp_shared_secret (user : option nat) : M unit :=
  p <- deref user "regenerate_totp_shared_secret" ;;
  secret <- draw (random_base32 C) ;;
  setattr user "otp_secret" (set_otp_secret secret).

(** [reset_two_factor_totp], lines 117-125 *)
Definition reset_two_factor_totp (req : Request) : M response :=
  uid <- getitem (form req) "uid" ;;
  user <- Journalist_query_get (PStr uid) ;;
  setattr user "is_totp" (set_is_totp true) ;;;
  regenerate_totp_shared_secret user ;;;
  db_session_commit ;;;
  ret (redirect (url_for "admin.new_user_two_factor" [("uid", PStr uid)])).

End AdminRest.

(** [ossec_test], lines 245-250 *)
Definition ossec_test : M response :=
  logger_error "This is a test OSSEC alert" ;;;
  flash "Test alert sent. Check your email." "notification" ;;;
  ret (redirect (url_for "admin.manage_config" [])).

(** ** Invariants of the table *)

(** The UNIQUE constraint on [journalists.username]. *)
Definition usernames_unique (t : list Journalist) : Prop :=
  unique (map username t) = true.

(** The primary key: every row has an id and no two rows share one. *)
Definition keys_distinct (t : list Journalist) : Prop :=
  Forall (fun row => id row <> None) t /\ NoDup (map id t).

Definition get (f a : list (string * string)) : Request :=
  mkRequest "GET" f a admin.

Definition bob : Journalist :=
  mkJournalist (Some 3) "bob" "scrypt:b" false false "CCCC" 4.

Definition password_error_message : string :=
  "There was an error with the autogenerated password. "
  ++ "User not created. Please try again.".

(** * Properties *)

(** ** Looking an account up *)

#[local] Arguments Journalist_query_get : simpl never.

Lemma load_frame (k : Z) (st : St) :
  exists v o,
    load k st = (Ok v, with_objects o st).
Proof.
  unfold load.
  destruct (find_index (has_id k) (objects st)) as [r|].
  - exists (Some r), (objects st). now destruct st.
  - destruct (find (has_id k) (table st)) as [row|].
    + eexists _, _. reflexivity.
    + exists None, (objects st). now destruct st.
Qed.

Lemma query_get_frame (key : pyval) (st : St) :
  exists v o,
    Journalist_query_get key st
    = (Ok v, with_objects o (record_call (Query_get key) st)).
Proof.
  unfold Journalist_query_get.
  destruct (pk_of key) as [k|].
  - apply load_frame.
  - exists None, (objects st). now destruct st.
Qed.

(** In a new session a lookup by primary key finds exactly the rows of the
    table. *)
Lemma query_get_fresh (key : pyval) (k : Z) (st : St) :
  objects st = [] ->
  pk_of key = Some k ->
  Journalist_query_get key st
  = match find (has_id k) (table st) with
    | Some row => (Ok (Some O),
                   with_objects [row] (record_call (Query_get key) st))
    | None => (Ok None, record_call (Query_get key) st)
    end.
Proof.
  intros Ho Hk. unfold Journalist_query_get, load. rewrite Hk. simpl.
  rewrite Ho. simpl.
  now destruct (find (has_id k) (table st)).
Qed.

Lemma int_eq_refl (k : Z) : int_eq k (Some k) = true.
Proof. apply Z.eqb_refl. Qed.

(** ** Password reset *)

(** C7. The two handlers registered for POST /edit/<id>/new-password,
    [set_password] and [new_password], agree on every user id, request and
    state: same response, same state change. *)
Theorem set_password_new_password_equal :
  forall (C : Collaborators) (user_id : Z) (req : Request) (st : St),
    set_password C user_id req st = new_password C user_id req st.
Proof.
  intros C user_id req st.
  unfold set_password, new_password.
  reflexivity.
Qed.

(** C1, at an id that no account has.  The claim asks for a 404 and no
    attempt to set a password; the handler instead calls
    [set_diceware_password] with [None] for the account, and the request
    ends in an uncaught [AttributeError]. *)
Theorem set_password_missing_account_no_404 :
  forall C : Collaborators,
    let req := post [("password", "x")] [] in
    let st := st0 [admin] in
    find (has_id 9) (table st) = None /\
    set_password C 9 req st
    = (set_diceware_password C None (Some "x") ;;;
       ret (redirect "/edit/9")) (record_call (Query_get (PInt 9)) st) /\
    fst (set_password C 9 req st)
    = Raise (AttributeError
               "'NoneType' object has no attribute 'set_password'") /\
    http_status (fst (set_password C 9 req st)) <> 404.
Proof.
  intros C req st. repeat split; try reflexivity.
  vm_compute. discriminate.
Qed.

(** ** Deleting an account *)

(** C2. When the target id is the requesting admin's own id, [delete_user]
    answers 403 and logs the attempt; nothing is deleted or committed, the
    table is the same, and so the admin's account is still there. *)
Theorem delete_user_self_forbidden :
  forall (user_id : Z) (req : Request) (st : St),
    id (g_user req) = Some user_id ->
    let out := delete_user user_id req st in
    fst out = Raise (HTTPException 403) /\
    http_status (fst out) = 403 /\
    log (snd out)
    = (log st ++ [("Admin " ++ username (g_user req)
                   ++ " tried to delete itself")%string])%list /\
    calls (snd out) = (calls st ++ [Query_get (PInt user_id)])%list /\
    pending_deleted (snd out) = pending_deleted st /\
    table (snd out) = table st /\
    (forall row, find (has_id user_id) (table st) = Some row ->
                 find (has_id user_id) (table (snd out)) = Some row).
Proof.
  intros user_id req st Hme out.
  assert (E : out = (Raise (HTTPException 403),
                     with_log (log st ++ [("Admin " ++ username (g_user req)
                                           ++ " tried to delete itself")%string])
                       (snd (Journalist_query_get (PInt user_id) st)))).
  { unfold out, delete_user, bind.
    destruct (query_get_frame (PInt user_id) st) as (v & o & ->).
    rewrite Hme, int_eq_refl. reflexivity. }
  rewrite E.
  destruct (query_get_frame (PInt user_id) st) as (v & o & ->).
  simpl. repeat split; auto.
Qed.

(** X20. When no account has the target id, the id is one the database
    can hold as a key, and it is not the requester's own, [delete_user]
    answers 404 and logs the attempt; the only call on the persistence
    layer is the lookup, and the state of the table and of the session is
    untouched. *)
Theorem delete_user_missing_not_found :
  forall (user_id : Z) (req : Request) (st : St),
    0 <= user_id < 2 ^ 63 ->
    fresh st ->
    int_eq user_id (id (g_user req)) = false ->
    find (has_id user_id) (table st) = None ->
    let out := delete_user user_id req st in
    fst out = Raise (HTTPException 404) /\
    http_status (fst out) = 404 /\
    log (snd out)
    = (log st ++ [("Admin " ++ username (g_user req)
                   ++ " tried to delete nonexistent user with pk="
                   ++ str_of_Z user_id)%string])%list /\
    calls (snd out) = [Query_get (PInt user_id)] /\
    table (snd out) = table st /\
    objects (snd out) = [] /\
    pending_new (snd out) = [] /\
    pending_deleted (snd out) = [] /\
    flashes (snd out) = flashes st.
Proof.
  intros user_id req st _ (Ho & Hn & Hd & Hc) Hme Hrow out.
  unfold out, delete_user, bind.
  rewrite (query_get_fresh (PInt user_id) user_id st Ho eq_refl), Hrow, Hme.
  simpl. rewrite Ho, Hn, Hd, Hc. repeat split; reflexivity.
Qed.

(** ** Resetting the HOTP secret *)

(** C10 as stated fails when the request has no [uid] field either:
    [request.form['uid']] is read first, and the answer is a 400, not the
    secret-entry form. *)
Lemma reset_hotp_empty_secret_without_uid :
  assoc "otp_secret" (form no_uid) = Some EmptyString /\
  fst (reset_two_factor_hotp service no_uid (st0 [admin; alice]))
  = Raise (BadRequestKeyError "uid") /\
  http_status (fst (reset_two_factor_hotp service no_uid (st0 [admin; alice])))
  = 400 /\
  forall context,
    fst (reset_two_factor_hotp service no_uid (st0 [admin; alice]))
    <> Ok (render_template "admin_edit_hotp_secret.html" context).
Proof.
  repeat split; try reflexivity.
  intros context. vm_compute. discriminate.
Qed.

(** C10, amended.  For a POST /reset-2fa-hotp that carries a [uid] and
    whose [otp_secret] is missing or empty, the handler renders the
    secret-entry form for that uid and leaves the whole state as it was: no
    lookup, no commit, no call on the persistence layer at all. *)
Theorem reset_hotp_empty_secret_rerenders :
  forall (C : Collaborators) (req : Request) (st : St) (uid : string),
    assoc "uid" (form req) = Some uid ->
    assoc "otp_secret" (form req) = None \/
    assoc "otp_secret" (form req) = Some EmptyString ->
    reset_two_factor_hotp C req st
    = (Ok (render_template "admin_edit_hotp_secret.html" [("uid", CStr uid)]),
       st) /\
    calls (snd (reset_two_factor_hotp C req st)) = calls st /\
    table (snd (reset_two_factor_hotp C req st)) = table st.
Proof.
  intros C req st uid Huid Hsecret.
  assert (E : reset_two_factor_hotp C req st
              = (Ok (render_template "admin_edit_hotp_secret.html"
                                     [("uid", CStr uid)]), st)).
  { unfold reset_two_factor_hotp, bind, getitem. rewrite Huid. simpl.
    destruct Hsecret as [-> | ->]; reflexivity. }
  rewrite E. auto.
Qed.

Lemma reset_hotp_empty_secret_rerenders_witness :
  assoc "uid" (form (post [("uid", "2")] [])) = Some "2" /\
  reset_two_factor_hotp service (post [("uid", "2")] []) (st0 [admin; alice])
  = (Ok (render_template "admin_edit_hotp_secret.html" [("uid", CStr "2")]),
     st0 [admin; alice]).
Proof.
  split; [reflexivity|].
  apply (reset_hotp_empty_secret_rerenders service (post [("uid", "2")] [])
           (st0 [admin; alice]) "2"); [reflexivity | left; reflexivity].
Defined.

Lemma unhexlify_error_malformed (secret : string) :
  Nat.odd (String.length secret) = true \/ all_hex secret = false ->
  unhexlify_error secret
  = Some (if Nat.odd (String.length secret) then "Odd-length string"
          else "Non-hexadecimal digit found").
Proof.
  unfold unhexlify_error. intros [H | H].
  - now rewrite H.
  - rewrite H. now destruct (Nat.odd (String.length secret)).
Qed.

(** Whatever else the request holds, a malformed secret never reaches the
    table: the handler commits nothing. *)
Lemma reset_hotp_malformed_no_commit (C : Collaborators) (req : Request)
    (st : St) (secret : string) :
  assoc "otp_secret" (form req) = Some secret ->
  Nat.odd (String.length secret) = true \/ all_hex secret = false ->
  table (snd (reset_two_factor_hotp C req st)) = table st /\
  (In Session_commit (calls (snd (reset_two_factor_hotp C req st))) ->
   In Session_commit (calls st)).
Proof.
  intros Hs Hbad.
  unfold reset_two_factor_hotp, bind, getitem.
  destruct (assoc "uid" (form req)) as [uid|]; simpl; [|auto].
  rewrite Hs.
  destruct (truthy (Some secret)); [|simpl; auto].
  destruct (query_get_frame (PStr uid) st) as (v & o & ->).
  unfold try_except_else, set_hotp_secret, bind, deref.
  assert (Hin : forall c l, In c (l ++ [Query_get (PStr uid)])%list ->
                            c = Session_commit -> In c l).
  { intros c l Hc ->. apply in_app_or in Hc as [Hc | [Hc | []]];
      [exact Hc | discriminate]. }
  destruct v as [r|]; simpl.
  - destruct (nth_error o r); simpl.
    + rewrite (unhexlify_error_malformed secret Hbad). simpl.
      destruct (Nat.odd (String.length secret)); simpl;
        (split; [reflexivity | intros H; now apply (Hin _ _ H)]).
    + split; [reflexivity | intros H; now apply (Hin _ _ H)].
  - split; [reflexivity | intros H; now apply (Hin _ _ H)].
Qed.

(** C4. A POST /reset-2fa-hotp for an existing account whose secret has odd
    length or holds a non-hexadecimal digit commits nothing: the table is
    the same and the account's object in the session still equals its row.
    The form is rendered again with one error message, which is the
    odd-length one for an odd-length secret and the letters-and-numbers one
    for an even-length secret with a non-hexadecimal digit; the two
    messages differ. *)
Theorem reset_hotp_malformed_secret_unchanged :
  forall (C : Collaborators) (req : Request) (st : St)
         (uid secret : string) (k : Z) (row : Journalist),
    fresh st ->
    assoc "uid" (form req) = Some uid ->
    pk_of (PStr uid) = Some k ->
    find (has_id k) (table st) = Some row ->
    assoc "otp_secret" (form req) = Some secret ->
    Nat.odd (String.length secret) = true \/ all_hex secret = false ->
    let out := reset_two_factor_hotp C req st in
    fst out
    = Ok (render_template "admin_edit_hotp_secret.html" [("uid", CStr uid)]) /\
    table (snd out) = table st /\
    objects (snd out) = [row] /\
    calls (snd out) = [Query_get (PStr uid)] /\
    flashes (snd out)
    = (flashes st
       ++ [(if Nat.odd (String.length secret) then odd_length_message
            else non_hex_message, "error")])%list /\
    odd_length_message <> non_hex_message.
Proof.
  intros C req st uid secret k row (Ho & Hn & Hd & Hc) Huid Hk Hrow Hs Hbad out.
  assert (Ht : truthy (Some secret) = true).
  { destruct secret; [destruct Hbad; discriminate | reflexivity]. }
  assert (E : out
              = (Ok (render_template "admin_edit_hotp_secret.html"
                                     [("uid", CStr uid)]),
                 with_flashes
                   (flashes st
                    ++ [(if Nat.odd (String.length secret)
                         then odd_length_message
                         else non_hex_message, "error")])
                   (with_objects [row]
                      (record_call (Query_get (PStr uid)) st)))).
  { unfold out, reset_two_factor_hotp, getitem.
    rewrite Huid, Hs, Ht. unfold bind, ret, try_except_else.
    rewrite (query_get_fresh (PStr uid) k st Ho Hk), Hrow.
    unfold set_hotp_secret, bind, deref. cbn [nth_error objects with_objects].
    rewrite (unhexlify_error_malformed secret Hbad). unfold raise.
    destruct (Nat.odd (String.length secret)); reflexivity. }
  rewrite E. simpl. rewrite Hc.
  repeat split; discriminate.
Qed.

Lemma reset_hotp_malformed_secret_unchanged_witness :
  fresh (st0 [admin; alice]) /\
  (Nat.odd (String.length "abcdz") = true \/ all_hex "abcdz" = false) /\
  flashes (snd (reset_two_factor_hotp service
                  (post [("uid", "2"); ("otp_secret", "abcdz")] [])
                  (st0 [admin; alice])))
  = [(odd_length_message, "error")].
Proof.
  split; [repeat split|]. split; [left; reflexivity|].
  apply (reset_hotp_malformed_secret_unchanged service
           (post [("uid", "2"); ("otp_secret", "abcdz")] [])
           (st0 [admin; alice]) "2" "abcdz" 2 alice);
    try reflexivity; [repeat split | left; reflexivity].
Defined.

(** ** Creating an account *)

Lemma find_all_false {A} (p : A -> bool) (l : list A) :
  (forall x, In x l -> p x = false) -> find p l = None.
Proof.
  induction l as [|x l IH]; intros H; simpl; [reflexivity|].
  rewrite (H x (or_introl eq_refl)). apply IH. intros y Hy. apply H. now right.
Qed.

Lemma apply_updates_transient (objs t : list Journalist) :
  (forall o, In o objs -> id o = None) -> apply_updates objs t = t.
Proof.
  intros H. unfold apply_updates. rewrite <- (map_id t) at 2.
  apply map_ext. intros row. destruct (id row) as [k|]; [|reflexivity].
  rewrite find_all_false; [reflexivity|].
  intros o Ho. unfold has_id. now rewrite (H o Ho).
Qed.

Lemma apply_deletes_nil (t : list Journalist) : apply_deletes [] t = t.
Proof.
  unfold apply_deletes. induction t as [|row t IH]; simpl; [reflexivity|].
  f_equal. exact IH.
Qed.

Lemma unique_collision (u : string) (t : list Journalist) :
  existsb (has_username u) t = true ->
  unique (map username t ++ [u]) = false.
Proof.
  induction t as [|row t IH]; simpl; [discriminate|].
  unfold has_username at 1. intros H.
  destruct (String.eqb (username row) u) eqn:E.
  - apply String.eqb_eq in E. subst u.
    rewrite existsb_app. simpl. rewrite String.eqb_refl.
    now rewrite orb_true_r.
  - simpl in H. rewrite (IH H). apply andb_false_r.
Qed.

Lemma replace_nth_last {A} (l : list A) (x y : A) :
  replace_nth (List.length l) x (l ++ [y]) = (l ++ [x])%list.
Proof. induction l as [|a l IH]; simpl; [reflexivity | now rewrite IH]. Qed.

Lemma Journalist_init_ok (C : Collaborators) (u pw : string) (adm : bool)
    (otp : option string) (st : St) :
  username_complaint C u = None ->
  password_acceptable C pw = true ->
  (forall s, otp = Some s -> unhexlify_error s = None) ->
  exists tp sec,
    Journalist_init C u pw adm otp st
    = (Ok (List.length (objects st)),
       with_objects
         (objects st ++ [mkJournalist None u (hash_password C pw) adm tp sec 0])
         (with_rng (S (rng st)) st)) /\
    (truthy otp = false -> tp = true /\ sec = random_base32 C (rng st)).
Proof.
  intros Hu Hp Hotp.
  unfold Journalist_init, check_username_acceptable, draw, bind, ret.
  rewrite Hu, Hp. cbn [objects with_objects with_rng].
  destruct (truthy otp) eqn:Ht.
  - destruct otp as [s|]; [|discriminate].
    unfold set_hotp_secret, setattr, bind, deref, ret.
    cbn [objects with_objects with_rng].
    rewrite nth_error_app2, Nat.sub_diag by lia. cbn [nth_error].
    rewrite (Hotp s eq_refl).
    cbn [objects with_objects with_rng].
    rewrite nth_error_app2, Nat.sub_diag by lia.
    cbn [nth_error fst snd objects with_objects with_rng].
    rewrite replace_nth_last.
    eexists _, _. split; [destruct st; reflexivity|]. discriminate.
  - eexists _, _. split; [reflexivity|]. now split.
Qed.

(** Committing one new object in an otherwise clean session. *)
Lemma commit_one_insert (st : St) (o : Journalist) :
  objects st = [o] -> id o = None ->
  pending_new st = [O] -> pending_deleted st = [] ->
  db_session_commit st
  = let row := set_id (fresh_id (table st)) o in
    if unique (map username (table st) ++ [username o])
    then (Ok tt,
          with_pending [] []
            (with_objects [row]
               (with_table (table st ++ [row])
                  (record_call Session_commit st))))
    else (Raise (IntegrityError unique_failed),
          record_call Session_commit st).
Proof.
  intros Ho Hid Hn Hd. unfold db_session_commit.
  cbn [objects table pending_new pending_deleted record_call with_calls].
  rewrite Ho, Hn, Hd.
  rewrite apply_updates_transient
    by (intros o' [<- | []]; exact Hid).
  cbn [deleted_ids flat_map]. rewrite apply_deletes_nil.
  cbn [apply_inserts nth_error replace_nth].
  rewrite map_app. reflexivity.
Qed.

Lemma contains_unique_failed :
  contains "UNIQUE constraint failed: journalists.username" unique_failed
  = true.
Proof. reflexivity. Qed.

#[local] Arguments db_session_commit : simpl never.
#[local] Arguments contains : simpl never.
#[local] Arguments Journalist_init : simpl never.

Ltac st_simpl :=
  cbn [table objects pending_new pending_deleted flashes log rng calls
       with_table with_objects with_pending with_flashes with_log with_rng
       with_calls record_call].

Lemma bind_ret {A B} (a : A) (f : A -> M B) : bind (ret a) f = f a.
Proof. reflexivity. Qed.

(** C3 as stated fails when the password is rejected: the account
    constructor raises [PasswordError] before anything is added to the
    session, so a request with a taken username ends with the password
    message only; no duplicate-username error, nothing to roll back. *)
Lemma add_user_duplicate_with_rejected_password :
  existsb (has_username "alice") (table (st0 [admin; alice])) = true /\
  assoc "username" (form duplicate_with_bad_password) = Some "alice" /\
  flashes (snd (add_user service duplicate_with_bad_password
                         (st0 [admin; alice])))
  = [("There was an error with the autogenerated password. "
      ++ "User not created. Please try again.", "error")] /\
  ~ In (username_in_use, "error")
       (flashes (snd (add_user service duplicate_with_bad_password
                               (st0 [admin; alice])))) /\
  calls (snd (add_user service duplicate_with_bad_password
                       (st0 [admin; alice]))) = [].
Proof.
  repeat split; try reflexivity.
  vm_compute. intros [H | []]. discriminate.
Qed.

(** C3, amended.  A POST /add that passes form validation, carries a
    username and a password that the account policies accept (and, with
    [is_hotp], a well-formed secret), and whose username is already in the
    table: the commit fails on the UNIQUE constraint, the handler rolls the
    session back, flashes the duplicate-username error and returns the
    add-user page without raising.  The table is unchanged, so the new
    account is not persisted. *)
Theorem add_user_duplicate_username_rolled_back :
  forall (C : Collaborators) (req : Request) (st : St) (un pw : string),
    fresh st ->
    validate_on_submit C req = true ->
    assoc "username" (form req) = Some un ->
    assoc "password" (form req) = Some pw ->
    username_complaint C un = None ->
    password_acceptable C pw = true ->
    (truthy (assoc "is_hotp" (form req)) = true ->
     forall s, assoc "otp_secret" (form req) = Some s ->
               unhexlify_error s = None) ->
    existsb (has_username un) (table st) = true ->
    let out := add_user C req st in
    fst out
    = Ok (render_template "admin_add_user.html"
            [("password", CStr (diceware C (S (rng st))));
             ("form", CForm (form req))]) /\
    table (snd out) = table st /\
    pending_new (snd out) = [] /\
    calls (snd out) = [Session_add; Session_commit; Session_rollback] /\
    flashes (snd out) = (flashes st ++ [(username_in_use, "error")])%list /\
    log (snd out) = log st.
Proof.
  intros C req st un pw (Ho & Hn & Hd & Hc) Hv Hu Hp Hua Hpa Hotp Hdup out.
  unfold out, add_user. rewrite Hv. unfold getitem. rewrite Hu, Hp.
  rewrite !bind_ret.
  match goal with |- context [Journalist_init C un pw ?a ?o] =>
    destruct (Journalist_init_ok C un pw a o st Hua Hpa) as (tp & sec & E & _)
  end.
  { intros s. destruct (truthy (assoc "is_hotp" (form req))); [|discriminate].
    intros [= <-].
    destruct (assoc "otp_secret" (form req)) as [s|] eqn:Es;
      [now apply Hotp | reflexivity]. }
  destruct st as [t o pn pd fl lg rn cs]. cbn in Ho, Hn, Hd, Hc, Hdup. subst.
  unfold bind, ret, try_except. rewrite E. cbn.
  erewrite commit_one_insert; [| reflexivity ..].
  st_simpl. cbn [username]. rewrite (unique_collision un t Hdup).
  cbn. rewrite contains_unique_failed. cbn.
  repeat split.
Qed.

Lemma add_user_duplicate_username_rolled_back_witness :
  fresh (st0 [admin; alice]) /\
  existsb (has_username "alice") (table (st0 [admin; alice])) = true /\
  flashes (snd (add_user service
                  (post [("username", "alice"); ("password", "x")] [])
                  (st0 [admin; alice])))
  = [(username_in_use, "error")].
Proof.
  split; [repeat split|]. split; [reflexivity|].
  apply (add_user_duplicate_username_rolled_back service
           (post [("username", "alice"); ("password", "x")] [])
           (st0 [admin; alice]) "alice" "x");
    try reflexivity; [repeat split | discriminate].
Defined.

Lemma unique_snoc (u : string) (t : list Journalist) :
  unique (map username t) = true ->
  existsb (has_username u) t = false ->
  unique (map username t ++ [u]) = true.
Proof.
  induction t as [|row t IH]; simpl; [reflexivity|].
  unfold has_username at 1.
  intros Hu Hn. apply andb_true_iff in Hu as [Hx Ht].
  apply orb_false_iff in Hn as [Hr Hn].
  rewrite (IH Ht Hn), andb_true_r, existsb_app. simpl.
  rewrite Hr. apply negb_true_iff in Hx. now rewrite Hx.
Qed.

Lemma id_below_fresh (t : list Journalist) (row : Journalist) (i : Z) :
  In row t -> id row = Some i -> i < fresh_id t.
Proof.
  unfold fresh_id. induction t as [|r t IH]; cbn [fold_right In]; [easy|].
  intros [-> | Hin] Hi.
  - rewrite Hi. lia.
  - specialize (IH Hin Hi). destruct (id r); lia.
Qed.

Lemma find_fresh_id (t : list Journalist) :
  find (has_id (fresh_id t)) t = None.
Proof.
  apply find_all_false. intros row Hin. unfold has_id.
  destruct (id row) as [i|] eqn:Hi; [|reflexivity].
  apply Z.eqb_neq. pose proof (id_below_fresh t row i Hin Hi). lia.
Qed.

Lemma find_snoc_new (t : list Journalist) (row : Journalist) :
  id row = Some (fresh_id t) ->
  find (has_id (fresh_id t)) (t ++ [row]) = Some row.
Proof.
  intros Hid. pose proof (find_fresh_id t) as Hnone.
  generalize dependent (fresh_id t). intros k Hid Hnone.
  induction t as [|r t IH]; simpl in *.
  - unfold has_id. now rewrite Hid, Z.eqb_refl.
  - destruct (has_id k r); [discriminate | now apply IH].
Qed.

Lemma pk_of_str_of_Z (z : Z) : pk_of (PStr (str_of_Z z)) = Some z.
Proof.
  unfold pk_of, str_of_Z.
  rewrite NilZero.isi.
  - simpl. now rewrite DecimalZ.of_to.
  - destruct z; simpl; try discriminate.
    intros [= H]. now apply Unsigned.to_uint_nonnil in H.
  - destruct z; simpl; try discriminate.
    intros [= H]. now apply Unsigned.to_uint_nonnil in H.
Qed.

(** What a successful POST /add does. *)
Lemma add_user_created (C : Collaborators) (req : Request) (st : St)
    (un pw : string) :
  fresh st ->
  validate_on_submit C req = true ->
  assoc "username" (form req) = Some un ->
  assoc "password" (form req) = Some pw ->
  truthy (assoc "is_hotp" (form req)) = false ->
  username_complaint C un = None ->
  password_acceptable C pw = true ->
  unique (map username (table st) ++ [un]) = true ->
  let row := mkJournalist (Some (fresh_id (table st))) un (hash_password C pw)
               (truthy (assoc "is_admin" (form req))) true
               (random_base32 C (rng st)) 0 in
  add_user C req st
  = (Ok (redirect ("/2fa?uid=" ++ str_of_Z (fresh_id (table st)))),
     mkSt (table st ++ [row]) [row] [] [] (flashes st) (log st) (S (rng st))
          [Session_add; Session_commit]).
Proof.
  intros (Ho & Hn & Hd & Hc) Hv Hu Hp Hh Hua Hpa Huniq row.
  unfold add_user. rewrite Hv. unfold getitem. rewrite Hu, Hp, Hh.
  rewrite !bind_ret.
  destruct st as [t o pn pd fl lg rn cs]. cbn in Ho, Hn, Hd, Hc, Huniq. subst.
  unfold bind, ret, try_except.
  unfold Journalist_init, check_username_acceptable, draw, bind, ret.
  rewrite Hua, Hpa. cbn.
  erewrite commit_one_insert; [| reflexivity ..].
  st_simpl. cbn [username]. rewrite Huniq. cbn. reflexivity.
Qed.

(** C8. A POST /add with username alice, password x and no admin flag, on
    a form that validates, with both values accepted by the account
    policies and no account named alice yet, creates the account and
    redirects to /2fa?uid=<new id>; a following POST /2fa for that uid whose
    token the new account accepts redirects to the account list /. *)
Theorem add_user_alice_then_two_factor :
  forall (C : Collaborators) (req : Request) (st : St),
    fresh st ->
    validate_on_submit C req = true ->
    assoc "username" (form req) = Some "alice" ->
    assoc "password" (form req) = Some "x" ->
    truthy (assoc "is_admin" (form req)) = false ->
    truthy (assoc "is_hotp" (form req)) = false ->
    username_complaint C "alice" = None ->
    password_acceptable C "x" = true ->
    unique (map username (table st)) = true ->
    existsb (has_username "alice") (table st) = false ->
    let out := add_user C req st in
    let new_id := fresh_id (table st) in
    let row := mkJournalist (Some new_id) "alice" (hash_password C "x") false
                            true (random_base32 C (rng st)) 0 in
    fst out = Ok (redirect ("/2fa?uid=" ++ str_of_Z new_id)) /\
    table (snd out) = (table st ++ [row])%list /\
    forall (req2 : Request) (st2 : St) (token : string),
      fresh st2 ->
      table st2 = table (snd out) ->
      method req2 = "POST" ->
      assoc "uid" (args req2) = Some (str_of_Z new_id) ->
      assoc "token" (form req2) = Some token ->
      token_ok C row token = true ->
      fst (new_user_two_factor C req2 st2) = Ok (redirect "/").
Proof.
  intros C req st Hf Hv Hu Hp Ha Hh Hua Hpa Huniq Hnew out new_id row.
  pose proof (add_user_created C req st "alice" "x" Hf Hv Hu Hp Hh Hua Hpa
                (unique_snoc "alice" (table st) Huniq Hnew)) as E.
  rewrite Ha in E. cbv zeta in E. fold new_id in E. fold row in E.
  unfold out. rewrite E. cbn [fst snd table].
  split; [reflexivity|]. split; [reflexivity|].
  intros req2 st2 token (Ho & Hn & Hd & Hc) Ht Hm Huid Htok Hok.
  unfold new_user_two_factor, getitem. rewrite Huid, Hm, Htok.
  rewrite bind_ret. unfold bind at 1.
  rewrite (query_get_fresh _ new_id st2 Ho (pk_of_str_of_Z new_id)), Ht.
  pose proof (find_snoc_new (table st) row eq_refl) as Hfind.
  fold new_id in Hfind. rewrite Hfind.
  unfold verify_token, deref, bind, ret. cbn. rewrite Hok. reflexivity.
Qed.

(** C9. Without [is_hotp] the submitted [otp_secret] never reaches the new
    account: whenever POST /add creates an account (it answers with the
    redirect), the row added to the table is a TOTP account with the
    default random secret, whatever [otp_secret] the form carried. *)
Theorem add_user_otp_secret_needs_is_hotp :
  forall (C : Collaborators) (req : Request) (st : St) (un pw : string),
    fresh st ->
    validate_on_submit C req = true ->
    assoc "username" (form req) = Some un ->
    assoc "password" (form req) = Some pw ->
    truthy (assoc "is_hotp" (form req)) = false ->
    let out := add_user C req st in
    forall location,
      fst out = Ok (redirect location) ->
      table (snd out)
      = (table st
         ++ [mkJournalist (Some (fresh_id (table st))) un (hash_password C pw)
                          (truthy (assoc "is_admin" (form req))) true
                          (random_base32 C (rng st)) 0])%list.
Proof.
  intros C req st un pw Hf Hv Hu Hp Hh out location.
  destruct (username_complaint C un) as [msg|] eqn:Hua.
  - unfold out, add_user. rewrite Hv. unfold getitem. rewrite Hu, Hp, Hh.
    rewrite !bind_ret. unfold bind, ret, try_except.
    unfold Journalist_init, check_username_acceptable, bind.
    rewrite Hua. cbn. discriminate.
  - destruct (password_acceptable C pw) eqn:Hpa.
    + destruct (unique (map username (table st) ++ [un])) eqn:Huniq.
      * unfold out.
        rewrite (add_user_created C req st un pw Hf Hv Hu Hp Hh Hua Hpa Huniq).
        reflexivity.
      * unfold out, add_user. rewrite Hv. unfold getitem. rewrite Hu, Hp, Hh.
        rewrite !bind_ret.
        destruct Hf as (Ho & Hn & Hd & Hc).
        destruct st as [t o pn pd fl lg rn cs].
        cbn in Ho, Hn, Hd, Hc, Huniq. subst.
        unfold bind, ret, try_except.
        unfold Journalist_init, check_username_acceptable, draw, bind, ret.
        rewrite Hua, Hpa. cbn.
        erewrite commit_one_insert; [| reflexivity ..].
        st_simpl. cbn [username]. rewrite Huniq. cbn.
        rewrite contains_unique_failed. cbn. discriminate.
    + unfold out, add_user. rewrite Hv. unfold getitem. rewrite Hu, Hp, Hh.
      rewrite !bind_ret. unfold bind, ret, try_except.
      unfold Journalist_init, check_username_acceptable, bind, ret.
      rewrite Hua, Hpa. cbn. discriminate.
Qed.

Lemma add_user_alice_then_two_factor_witness :
  fresh (st0 [admin]) /\
  existsb (has_username "alice") (table (st0 [admin])) = false /\
  fst (add_user service (post [("username", "alice"); ("password", "x")] [])
                (st0 [admin]))
  = Ok (redirect "/2fa?uid=2") /\
  fst (new_user_two_factor service
         (post [("token", "otp:JBSWY3DPEHPK3PXP")] [("uid", "2")])
         (st0 (table (snd (add_user service
                             (post [("username", "alice"); ("password", "x")] [])
                             (st0 [admin]))))))
  = Ok (redirect "/").
Proof.
  assert (Hf : forall t, fresh (st0 t)) by (intros t; repeat split).
  destruct (add_user_alice_then_two_factor service
              (post [("username", "alice"); ("password", "x")] [])
              (st0 [admin]) (Hf _) eq_refl eq_refl eq_refl eq_refl eq_refl
              eq_refl eq_refl eq_refl eq_refl) as (H1 & H2 & H3).
  split; [apply Hf|]. split; [reflexivity|]. split; [exact H1|].
  apply (H3 (post [("token", "otp:JBSWY3DPEHPK3PXP")] [("uid", "2")])
            (st0 (table (snd (add_user service
                                (post [("username", "alice"); ("password", "x")]
                                      [])
                                (st0 [admin])))))
            "otp:JBSWY3DPEHPK3PXP"); try reflexivity. apply Hf.
Defined.

Lemma add_user_otp_secret_needs_is_hotp_witness :
  fresh (st0 [admin]) /\
  assoc "otp_secret" (form with_stray_secret) = Some "deadbeef" /\
  truthy (assoc "is_hotp" (form with_stray_secret)) = false /\
  table (snd (add_user service with_stray_secret (st0 [admin])))
  = [admin;
     mkJournalist (Some 2) "alice" "scrypt:x" false true "JBSWY3DPEHPK3PXP" 0].
Proof.
  split; [repeat split|]. split; [reflexivity|]. split; [reflexivity|].
  apply (add_user_otp_secret_needs_is_hotp service with_stray_secret
           (st0 [admin]) "alice" "x") with (location := "/2fa?uid=2");
    try reflexivity. repeat split.
Defined.

(** ** Editing an account *)

Lemma find_has_id (k : Z) (t : list Journalist) (row : Journalist) :
  find (has_id k) t = Some row -> id row = Some k.
Proof.
  intros H. apply find_some in H as [_ H]. unfold has_id in H.
  destruct (id row) as [i|]; [|discriminate].
  apply Z.eqb_eq in H. now subst.
Qed.

Lemma find_apply_updates (k : Z) (o row : Journalist) (t : list Journalist) :
  id o = Some k ->
  find (has_id k) t = Some row ->
  find (has_id k) (apply_updates [o] t) = Some o.
Proof.
  intros Ho. unfold apply_updates.
  assert (Hko : has_id k o = true)
    by (unfold has_id; rewrite Ho; apply Z.eqb_refl).
  induction t as [|r t IH]; cbn [find map]; [discriminate|].
  destruct (has_id k r) eqn:Hr.
  - intros _. unfold has_id in Hr. destruct (id r) as [i|]; [|discriminate].
    apply Z.eqb_eq in Hr. subst i. now rewrite Hko, Hko.
  - intros H. destruct (id r) as [i|] eqn:Hi.
    + assert (Hio : has_id i o = false).
      { unfold has_id in Hr |- *. rewrite Hi in Hr. rewrite Ho.
        now rewrite Z.eqb_sym. }
      rewrite Hio, Hr. now apply IH.
    + rewrite Hr. now apply IH.
Qed.

(** Committing the changes of one loaded object. *)
Lemma commit_one_update (st : St) (o : Journalist) (k : Z) :
  objects st = [o] -> id o = Some k ->
  pending_new st = [] -> pending_deleted st = [] ->
  db_session_commit st
  = if unique (map username (apply_updates [o] (table st)))
    then (Ok tt,
          with_pending [] []
            (with_objects [o]
               (with_table (apply_updates [o] (table st))
                  (record_call Session_commit st))))
    else (Raise (IntegrityError unique_failed),
          record_call Session_commit st).
Proof.
  intros Ho Hid Hn Hd. unfold db_session_commit.
  st_simpl. rewrite Ho, Hn, Hd.
  cbn [deleted_ids flat_map]. rewrite apply_deletes_nil.
  cbn [apply_inserts]. reflexivity.
Qed.

Lemma is_modified_frame (r : nat) (st : St) :
  exists b, db_session_is_modified r st = (Ok b, st).
Proof.
  unfold db_session_is_modified.
  destruct (nth_error (objects st) r) as [o|]; [|now exists false].
  destruct (id o) as [k|]; [|now exists false].
  destruct (find (has_id k) (table st)); eexists; reflexivity.
Qed.

#[local] Arguments db_session_is_modified : simpl never.

(** The end of [edit_user] after the username block: [is_admin] is set and
    the changes are committed, or found not to be changes. *)
Ltac edit_tail P Hrow :=
  match goal with |- context [db_session_is_modified O ?s] =>
    destruct (is_modified_frame O s) as ([|] & ->) end;
  cbn;
  [ unfold try_except_else, bind; cbn;
    erewrite commit_one_update; [| reflexivity ..]; st_simpl;
    match goal with |- context [unique ?l] => destruct (unique l) end; cbn;
    subst P; cbn;
    (split; [|split]);
    [ intros u' H; repeat (destruct H as [H|H]; [discriminate|]); exact H
    | exists [("Account updated.", "success")]; split; [reflexivity|];
      intros c [H|[]]; discriminate
    | eexists; split;
      [eapply find_apply_updates; [reflexivity|exact Hrow] | reflexivity]
    | intros u' H; repeat (destruct H as [H|H]; [discriminate|]); exact H
    | eexists [_]; split; [reflexivity|]; intros c [H|[]]; discriminate
    | eexists; split; [exact Hrow | reflexivity] ]
  | subst P; cbn;
    (split; [|split]);
    [ intros u' [H|[]]; discriminate
    | exists []; split; [now rewrite app_nil_r | intros c []]
    | eexists; split; [exact Hrow | reflexivity] ] ].

(** C6. A POST /edit/<id> that submits the account's current username
    leaves the username alone: the handler never queries for another
    account of that name, so no username-taken error is flashed, and after
    the request the account's row still carries the same username. *)
Theorem edit_user_same_username_noop :
  forall (C : Collaborators) (user_id : Z) (req : Request) (st : St)
         (row : Journalist),
    fresh st ->
    method req = "POST" ->
    find (has_id user_id) (table st) = Some row ->
    assoc "username" (form req) = Some (username row) ->
    let out := edit_user C user_id req st in
    (forall u, ~ In (Query_filter_by_username u) (calls (snd out))) /\
    (exists extra,
        flashes (snd out) = (flashes st ++ extra)%list /\
        forall category,
          ~ In (username_taken (username row), category) extra) /\
    exists row',
      find (has_id user_id) (table (snd out)) = Some row' /\
      username row' = username row.
Proof.
  intros C user_id req st row (Ho & Hn & Hd & Hc) Hm Hrow Hu out.
  pose proof (find_has_id _ _ _ Hrow) as Hid.
  subst out. cbv zeta.
  pattern (edit_user C user_id req st).
  match goal with |- ?P0 _ => set (P := P0) end.
  unfold edit_user. unfold bind at 1.
  rewrite (query_get_fresh (PInt user_id) user_id st Ho eq_refl), Hrow.
  rewrite Hm. cbn [String.eqb Ascii.eqb Bool.eqb]. rewrite Hu.
  destruct st as [t o pn pd fl lg rn cs]. cbn in Ho, Hn, Hd, Hc, Hrow. subst.
  destruct row as [i u h a tp sec ctr]. cbn in Hid. subst i.
  st_simpl. cbn [username] in *.
  destruct (truthy (Some u)) eqn:Ht;
    [ unfold getitem; rewrite Hu, bind_ret; unfold check_username_acceptable;
      destruct (username_complaint C u) as [msg|] eqn:Hcu | ];
    unfold setattr, commit_account_changes, bind, try_except, deref, raise, ret;
    cbn; rewrite ?String.eqb_refl; cbn.
  - subst P. cbn. split; [|split].
    + intros u' [H|[]]; discriminate.
    + eexists [_]. split; [reflexivity|].
      intros c [H|[]]. discriminate.
    + eexists. split; [exact Hrow|]. reflexivity.
  - edit_tail P Hrow.
  - edit_tail P Hrow.
Qed.

Lemma edit_user_same_username_noop_witness :
  fresh (st0 [admin; alice]) /\
  find (has_id 2) (table (st0 [admin; alice])) = Some alice /\
  exists row',
    find (has_id 2)
         (table (snd (edit_user service 2
                        (post [("username", "alice"); ("is_admin", "y")] [])
                        (st0 [admin; alice]))))
    = Some row' /\
    username row' = "alice".
Proof.
  split; [repeat split|]. split; [reflexivity|].
  apply (edit_user_same_username_noop service 2
           (post [("username", "alice"); ("is_admin", "y")] [])
           (st0 [admin; alice]) alice); try reflexivity. repeat split.
Defined.

(** ** Witnesses for the deletion theorems *)

Lemma delete_user_self_forbidden_witness :
  id (g_user (post [] [])) = Some 1 /\
  fst (delete_user 1 (post [] []) (st0 [admin; alice]))
  = Raise (HTTPException 403) /\
  table (snd (delete_user 1 (post [] []) (st0 [admin; alice])))
  = [admin; alice].
Proof.
  split; [reflexivity|].
  destruct (delete_user_self_forbidden 1 (post [] []) (st0 [admin; alice])
              eq_refl) as (H1 & _ & _ & _ & _ & H2 & _).
  split; [exact H1 | exact H2].
Defined.

Lemma delete_user_missing_not_found_witness :
  0 <= 9 < 2 ^ 63 /\
  fresh (st0 [admin; alice]) /\
  int_eq 9 (id (g_user (post [] []))) = false /\
  find (has_id 9) (table (st0 [admin; alice])) = None /\
  fst (delete_user 9 (post [] []) (st0 [admin; alice]))
  = Raise (HTTPException 404).
Proof.
  split; [lia|]. split; [repeat split|]. split; [reflexivity|].
  split; [reflexivity|].
  apply (delete_user_missing_not_found 9 (post [] []) (st0 [admin; alice]));
    try reflexivity; [lia | repeat split].
Defined.

(** A flush does not change the ids of the rows. *)
Lemma apply_updates_ids (objs t : list Journalist) :
  map id (apply_updates objs t) = map id t.
Proof.
  unfold apply_updates. rewrite map_map. apply map_ext. intros row.
  destruct (id row) as [k|] eqn:Hk; [|exact Hk].
  destruct (find (has_id k) objs) as [o|] eqn:Ho; [|exact Hk].
  apply find_has_id in Ho. congruence.
Qed.

(** ** Deleting an account that exists *)

Lemma apply_updates_one (k : Z) (o : Journalist) (t : list Journalist) :
  id o = Some k ->
  apply_updates [o] t = map (fun r => if has_id k r then o else r) t.
Proof.
  intros Ho. unfold apply_updates. apply map_ext. intros r.
  unfold has_id at 2. destruct (id r) as [i|]; [|reflexivity].
  cbn [find]. unfold has_id. rewrite Ho, (Z.eqb_sym k i).
  now destruct (i =? k).
Qed.

Lemma filter_apply_updates_one (k : Z) (o : Journalist) (t : list Journalist) :
  id o = Some k ->
  filter (fun r => negb (has_id k r)) (apply_updates [o] t)
  = filter (fun r => negb (has_id k r)) t.
Proof.
  intros Ho. rewrite (apply_updates_one k o t Ho).
  assert (Hko : has_id k o = true)
    by (unfold has_id; rewrite Ho; apply Z.eqb_refl).
  induction t as [|r t IH]; [reflexivity|]. cbn [map filter].
  destruct (has_id k r) eqn:Hr.
  - rewrite Hko. cbn. exact IH.
  - rewrite Hr. cbn. now rewrite IH.
Qed.

Lemma unique_filter (p : Journalist -> bool) (t : list Journalist) :
  usernames_unique t -> usernames_unique (filter p t).
Proof.
  unfold usernames_unique. induction t as [|r t IH]; [reflexivity|].
  cbn [map unique filter]. intros H. apply andb_true_iff in H as [Hr Ht].
  destruct (p r); [|now apply IH]. cbn [map unique].
  rewrite (IH Ht), andb_true_r. apply negb_true_iff.
  apply negb_true_iff in Hr.
  destruct (existsb (String.eqb (username r)) (map username (filter p t)))
    eqn:E; [|reflexivity].
  apply existsb_exists in E as (x & Hin & Hx).
  apply in_map_iff in Hin as (r' & <- & Hin). apply filter_In in Hin as [Hin _].
  rewrite <- Hr. symmetry. apply existsb_exists.
  exists (username r'). split; [now apply in_map | exact Hx].
Qed.

Lemma find_filter_out (k : Z) (t : list Journalist) :
  find (has_id k) (filter (fun r => negb (has_id k r)) t) = None.
Proof.
  apply find_all_false. intros r Hin. apply filter_In in Hin as [_ H].
  now apply negb_true_iff in H.
Qed.

Lemma find_filter_other (k k' : Z) (t : list Journalist) :
  k' <> k ->
  find (has_id k') (filter (fun r => negb (has_id k r)) t)
  = find (has_id k') t.
Proof.
  intros Hne. induction t as [|r t IH]; [reflexivity|]. cbn [filter find].
  destruct (has_id k r) eqn:Hr; cbn [negb find].
  - assert (has_id k' r = false) as ->; [|exact IH].
    unfold has_id in *. destruct (id r) as [i|]; [|reflexivity].
    apply Z.eqb_eq in Hr. subst i. now apply Z.eqb_neq.
  - now rewrite IH.
Qed.

(** What [delete_user] does to an existing account that is not the
    requester's. *)
Lemma delete_user_existing_run (user_id : Z) (req : Request) (st : St)
    (row : Journalist) :
  fresh st ->
  usernames_unique (table st) ->
  int_eq user_id (id (g_user req)) = false ->
  find (has_id user_id) (table st) = Some row ->
  delete_user user_id req st
  = (Ok (redirect "/"),
     mkSt (filter (fun r => negb (has_id user_id r)) (table st))
          [row] [] []
          (flashes st
           ++ [(("Deleted user '" ++ username row ++ "'")%string,
                "notification")])
          (log st) (rng st)
          [Query_get (PInt user_id); Session_delete; Session_commit]).
Proof.
  intros (Ho & Hn & Hd & Hc) Hu Hme Hrow.
  pose proof (find_has_id _ _ _ Hrow) as Hid.
  unfold delete_user. unfold bind at 1.
  rewrite (query_get_fresh (PInt user_id) user_id st Ho eq_refl), Hrow, Hme.
  destruct st as [t o pn pd fl lg rn cs]. cbn in Ho, Hn, Hd, Hc, Hrow, Hu.
  subst. unfold bind, db_session_delete. st_simpl.
  unfold db_session_commit. st_simpl.
  cbn [deleted_ids flat_map nth_error app]. rewrite Hid.
  cbn [apply_inserts app].
  replace (apply_deletes [user_id] (apply_updates [row] t))
    with (filter (fun r => negb (has_id user_id r)) t).
  2:{ rewrite <- (filter_apply_updates_one user_id row t Hid).
      unfold apply_deletes. apply filter_ext. intros r. cbn [existsb].
      now rewrite orb_false_r. }
  rewrite (unique_filter _ t Hu). cbn. reflexivity.
Qed.

(** X4. [delete_user] on an existing account other than the requester's
    removes exactly that account: the rows with the target id are gone, every
    other id still finds the row it found before, the deletion is flashed
    with the account's username, and the answer is a redirect to the
    account list. *)
Theorem delete_user_removes_account :
  forall (user_id : Z) (req : Request) (st : St) (row : Journalist),
    fresh st ->
    usernames_unique (table st) ->
    int_eq user_id (id (g_user req)) = false ->
    find (has_id user_id) (table st) = Some row ->
    let out := delete_user user_id req st in
    fst out = Ok (redirect "/") /\
    table (snd out) = filter (fun r => negb (has_id user_id r)) (table st) /\
    find (has_id user_id) (table (snd out)) = None /\
    (forall k, k <> user_id ->
               find (has_id k) (table (snd out)) = find (has_id k) (table st)) /\
    flashes (snd out)
    = (flashes st
       ++ [(("Deleted user '" ++ username row ++ "'")%string,
            "notification")])%list /\
    calls (snd out) = [Query_get (PInt user_id); Session_delete; Session_commit].
Proof.
  intros user_id req st row Hf Hu Hme Hrow out.
  unfold out. rewrite (delete_user_existing_run user_id req st row Hf Hu Hme Hrow).
  cbn [fst snd table flashes calls].
  repeat split.
  - apply find_filter_out.
  - intros k Hk. now apply find_filter_other.
Qed.

Lemma delete_user_removes_account_witness :
  fresh (st0 [admin; alice; bob]) /\
  find (has_id 2) (table (st0 [admin; alice; bob])) = Some alice /\
  table (snd (delete_user 2 (post [] []) (st0 [admin; alice; bob])))
  = [admin; bob].
Proof.
  split; [repeat split|]. split; [reflexivity|].
  apply (delete_user_removes_account 2 (post [] []) (st0 [admin; alice; bob])
           alice); try reflexivity. repeat split.
Defined.

Lemma filter_out_fresh (t : list Journalist) (o : Journalist) :
  filter (fun r => negb (has_id (fresh_id t) r))
         (t ++ [set_id (fresh_id t) o])
  = t.
Proof.
  rewrite filter_app. cbn [filter]. unfold has_id at 2. cbn [id set_id].
  rewrite Z.eqb_refl. cbn [negb]. rewrite app_nil_r.
  pose proof (id_below_fresh t) as Hlt.
  generalize dependent (fresh_id t). intros k Hlt.
  induction t as [|r t IH]; [reflexivity|]. cbn [filter].
  assert (has_id k r = false) as ->.
  { unfold has_id. destruct (id r) as [i|] eqn:Hi; [|reflexivity].
    apply Z.eqb_neq. specialize (Hlt r i (or_introl eq_refl) Hi). lia. }
  cbn [negb]. f_equal. apply IH. intros row i Hin. apply Hlt. now right.
Qed.

(** X5. Creating an account and then deleting it gives back the table one
    started with: a successful POST /add followed by POST /delete/<new id>
    (by an admin who is not that account) leaves the committed table equal
    to the one before the POST /add. *)
Theorem add_user_then_delete_user_restores :
  forall (C : Collaborators) (req req2 : Request) (st st2 : St)
         (un pw : string),
    fresh st ->
    validate_on_submit C req = true ->
    assoc "username" (form req) = Some un ->
    assoc "password" (form req) = Some pw ->
    truthy (assoc "is_hotp" (form req)) = false ->
    username_complaint C un = None ->
    password_acceptable C pw = true ->
    usernames_unique (table st) ->
    existsb (has_username un) (table st) = false ->
    fresh st2 ->
    table st2 = table (snd (add_user C req st)) ->
    int_eq (fresh_id (table st)) (id (g_user req2)) = false ->
    fst (add_user C req st)
    = Ok (redirect ("/2fa?uid=" ++ str_of_Z (fresh_id (table st)))) /\
    table (snd (delete_user (fresh_id (table st)) req2 st2)) = table st.
Proof.
  intros C req req2 st st2 un pw Hf Hv Hu Hp Hh Hua Hpa Huniq Hnew Hf2 Ht Hme.
  pose proof (unique_snoc un (table st) Huniq Hnew) as Hsnoc.
  rewrite (add_user_created C req st un pw Hf Hv Hu Hp Hh Hua Hpa Hsnoc) in *.
  cbn [fst snd table] in *. split; [reflexivity|].
  match type of Ht with _ = (_ ++ [?r])%list => set (row := r) in * end.
  assert (Hu2 : usernames_unique (table st2)).
  { rewrite Ht. unfold usernames_unique. now rewrite map_app. }
  assert (Hrow : find (has_id (fresh_id (table st))) (table st2) = Some row).
  { rewrite Ht. now apply find_snoc_new. }
  rewrite (delete_user_existing_run _ req2 st2 row Hf2 Hu2 Hme Hrow).
  cbn [snd table]. rewrite Ht.
  apply (filter_out_fresh (table st) row).
Qed.

Lemma add_user_then_delete_user_restores_witness :
  fresh (st0 [admin; alice]) /\
  existsb (has_username "carol") (table (st0 [admin; alice])) = false /\
  table (snd (delete_user 3 (post [] [])
                (st0 (table (snd (add_user service
                                    (post [("username", "carol");
                                           ("password", "x")] [])
                                    (st0 [admin; alice])))))))
  = [admin; alice].
Proof.
  assert (Hf : forall t, fresh (st0 t)) by (intros t; repeat split).
  split; [apply Hf|]. split; [reflexivity|].
  apply (add_user_then_delete_user_restores service
           (post [("username", "carol"); ("password", "x")] []) (post [] [])
           (st0 [admin; alice])
           (st0 (table (snd (add_user service
                               (post [("username", "carol");
                                      ("password", "x")] [])
                               (st0 [admin; alice]))))) "carol" "x");
    try reflexivity; apply Hf.
Defined.

(** ** Requests the account policies reject *)

(** X6. When the username or the password of a POST /add is rejected by
    the account policies, [add_user] reports it and touches nothing: one
    error is flashed (the username complaint, or else the password
    message), the add-user page is returned, and there is no call on the
    persistence layer, no object left in the session and no change to the
    table. *)
Theorem add_user_rejected_touches_nothing :
  forall (C : Collaborators) (req : Request) (st : St) (un pw : string),
    validate_on_submit C req = true ->
    assoc "username" (form req) = Some un ->
    assoc "password" (form req) = Some pw ->
    username_complaint C un <> None \/ password_acceptable C pw = false ->
    let out := add_user C req st in
    fst out
    = Ok (render_template "admin_add_user.html"
            [("password", CStr (diceware C (rng st)));
             ("form", CForm (form req))]) /\
    flashes (snd out)
    = (flashes st
       ++ [(match username_complaint C un with
            | Some msg => ("Invalid username: " ++ msg)%string
            | None => password_error_message
            end, "error")])%list /\
    calls (snd out) = calls st /\
    objects (snd out) = objects st /\
    pending_new (snd out) = pending_new st /\
    table (snd out) = table st.
Proof.
  intros C req st un pw Hv Hu Hp Hbad out.
  unfold out, add_user. rewrite Hv. unfold getitem. rewrite Hu, Hp.
  rewrite !bind_ret. unfold bind, ret, try_except.
  unfold Journalist_init, check_username_acceptable, bind, ret, raise.
  destruct (username_complaint C un) as [msg|] eqn:Hua.
  - cbn. repeat split.
  - destruct Hbad as [Hbad | Hbad]; [congruence|].
    rewrite Hbad. cbn. repeat split.
Qed.

Lemma add_user_rejected_touches_nothing_witness :
  username_complaint service "al" <> None /\
  flashes (snd (add_user service
                  (post [("username", "al"); ("password", "x")] [])
                  (st0 [admin])))
  = [("Invalid username: must be at least 3 characters long", "error")].
Proof.
  split; [discriminate|].
  apply (add_user_rejected_touches_nothing service
           (post [("username", "al"); ("password", "x")] []) (st0 [admin])
           "al" "x"); try reflexivity. left. discriminate.
Defined.

(** ** The two-factor page *)

(** X7. A POST /2fa whose token the account does not accept flashes the
    could-not-verify error and renders the two-factor page for the same
    account again; the only call on the persistence layer is the lookup. *)
Theorem new_user_two_factor_wrong_token :
  forall (C : Collaborators) (req : Request) (st : St)
         (uid token : string) (k : Z) (row : Journalist),
    fresh st ->
    method req = "POST" ->
    assoc "uid" (args req) = Some uid ->
    pk_of (PStr uid) = Some k ->
    find (has_id k) (table st) = Some row ->
    assoc "token" (form req) = Some token ->
    token_ok C row token = false ->
    let out := new_user_two_factor C req st in
    fst out
    = Ok (render_template "admin_new_user_two_factor.html"
                          [("user", CUser (Some row))]) /\
    flashes (snd out)
    = (flashes st
       ++ [("Could not verify token in two-factor authentication.",
            "error")])%list /\
    calls (snd out) = [Query_get (PStr uid)].
Proof.
  intros C req st uid token k row (Ho & Hn & Hd & Hc) Hm Huid Hk Hrow Htok Hbad
         out.
  assert (E : out
              = (Ok (render_template "admin_new_user_two_factor.html"
                                     [("user", CUser (Some row))]),
                 with_flashes
                   (flashes st
                    ++ [("Could not verify token in two-factor authentication.",
                         "error")])
                   (with_objects [row]
                      (record_call (Query_get (PStr uid)) st)))).
  { unfold out, new_user_two_factor, getitem. rewrite Huid, Hm, Htok.
    rewrite bind_ret. unfold bind at 1.
    rewrite (query_get_fresh (PStr uid) k st Ho Hk), Hrow.
    unfold verify_token, deref, bind, ret. cbn. rewrite Hbad. reflexivity. }
  rewrite E. cbn. rewrite Hc. repeat split.
Qed.

Lemma new_user_two_factor_wrong_token_witness :
  fresh (st0 [admin; alice]) /\
  token_ok service alice "000000" = false /\
  fst (new_user_two_factor service (post [("token", "000000")] [("uid", "2")])
         (st0 [admin; alice]))
  = Ok (render_template "admin_new_user_two_factor.html"
                        [("user", CUser (Some alice))]).
Proof.
  split; [repeat split|]. split; [reflexivity|].
  apply (new_user_two_factor_wrong_token service
           (post [("token", "000000")] [("uid", "2")]) (st0 [admin; alice])
           "2" "000000" 2 alice); try reflexivity. repeat split.
Defined.

(** X8. [new_user_two_factor] does not check that the account exists.  For
    a uid that no row has, a GET renders the two-factor page with no user,
    and a POST with a token fails on [user.verify_token] with an
    [AttributeError], which is a 500 and not a 404. *)
Theorem new_user_two_factor_unknown_uid :
  forall (C : Collaborators) (req : Request) (st : St)
         (uid : string) (k : Z),
    fresh st ->
    assoc "uid" (args req) = Some uid ->
    pk_of (PStr uid) = Some k ->
    find (has_id k) (table st) = None ->
    let out := new_user_two_factor C req st in
    (String.eqb (method req) "POST" = false ->
     fst out = Ok (render_template "admin_new_user_two_factor.html"
                                   [("user", CUser None)])) /\
    (forall token,
        method req = "POST" ->
        assoc "token" (form req) = Some token ->
        fst out
        = Raise (AttributeError
                   "'NoneType' object has no attribute 'verify_token'") /\
        http_status (fst out) = 500).
Proof.
  intros C req st uid k (Ho & Hn & Hd & Hc) Huid Hk Hrow out.
  assert (E : out
              = (returned <-
                   (if String.eqb (method req) "POST" then
                      token <- getitem (form req) "token" ;;
                      ok <- verify_token C None token ;;
                      ret None
                    else ret None) ;;
                 match returned with
                 | Some r => ret r
                 | None =>
                     ret (render_template "admin_new_user_two_factor.html"
                                          [("user", CUser None)])
                 end) (record_call (Query_get (PStr uid)) st)).
  { unfold out, new_user_two_factor, getitem at 1. rewrite Huid.
    rewrite bind_ret. unfold bind at 1.
    rewrite (query_get_fresh (PStr uid) k st Ho Hk), Hrow.
    destruct (String.eqb (method req) "POST"); [|reflexivity].
    unfold getitem. destruct (assoc "token" (form req)); reflexivity. }
  rewrite E. split.
  - intros ->. reflexivity.
  - intros token -> Htok. unfold getitem. rewrite Htok. split; reflexivity.
Qed.

Lemma new_user_two_factor_unknown_uid_witness :
  fresh (st0 [admin]) /\
  find (has_id 7) (table (st0 [admin])) = None /\
  http_status (fst (new_user_two_factor service
                      (post [("token", "000000")] [("uid", "7")])
                      (st0 [admin])))
  = 500.
Proof.
  assert (Hf : fresh (st0 [admin])) by repeat split.
  split; [exact Hf|]. split; [reflexivity|].
  destruct (new_user_two_factor_unknown_uid service
              (post [("token", "000000")] [("uid", "7")]) (st0 [admin])
              "7" 7 Hf eq_refl eq_refl eq_refl) as (_ & H).
  apply (H "000000"); reflexivity.
Defined.

(** ** Editing: the other paths *)

Lemma load_found (k : Z) (st : St) (row : Journalist) :
  In row (table st) -> has_id k row = true ->
  exists r o, load k st = (Ok (Some r), with_objects o st).
Proof.
  intros Hin Hk. unfold load.
  destruct (find_index (has_id k) (objects st)) as [r|].
  - exists r, (objects st). now destruct st.
  - destruct (find (has_id k) (table st)) as [row'|] eqn:E.
    + eexists _, _. reflexivity.
    + apply (find_none _ _ E) in Hin. congruence.
Qed.

(** X9. A POST /edit/<id> that asks for a username another account holds
    is refused: the username-taken error is flashed, the answer is a
    redirect back to the edit page, nothing is committed and the table is
    unchanged. *)
Theorem edit_user_username_taken :
  forall (C : Collaborators) (user_id : Z) (req : Request) (st : St)
         (row other : Journalist) (u : string) (k : Z),
    fresh st ->
    method req = "POST" ->
    find (has_id user_id) (table st) = Some row ->
    assoc "username" (form req) = Some u ->
    u <> EmptyString ->
    username_complaint C u = None ->
    u <> username row ->
    filter (has_username u) (table st) = [other] ->
    id other = Some k ->
    let out := edit_user C user_id req st in
    fst out = Ok (redirect ("/edit/" ++ str_of_Z user_id)) /\
    flashes (snd out) = (flashes st ++ [(username_taken u, "error")])%list /\
    calls (snd out) = [Query_get (PInt user_id); Query_filter_by_username u] /\
    table (snd out) = table st.
Proof.
  intros C user_id req st row other u k (Ho & Hn & Hd & Hc) Hm Hrow Hu Hne Hua
         Hdiff Hfilter Hk out.
  assert (Hin : In other (table st) /\ has_username u other = true).
  { apply filter_In. rewrite Hfilter. now left. }
  assert (Hko : has_id k other = true)
    by (unfold has_id; rewrite Hk; apply Z.eqb_refl).
  assert (E : exists o,
             out = (Ok (redirect ("/edit/" ++ str_of_Z user_id)),
                    with_flashes (flashes st ++ [(username_taken u, "error")])
                      (with_objects o
                         (record_call (Query_filter_by_username u)
                            (record_call (Query_get (PInt user_id)) st))))).
  { unfold out, edit_user. unfold bind at 1.
    rewrite (query_get_fresh (PInt user_id) user_id st Ho eq_refl), Hrow.
    rewrite Hm. cbn [String.eqb Ascii.eqb Bool.eqb]. rewrite Hu.
    assert (truthy (Some u) = true) as ->.
    { cbn. apply negb_true_iff. now apply String.eqb_neq. }
    unfold getitem. rewrite Hu, bind_ret.
    unfold check_username_acceptable. rewrite Hua.
    unfold bind at 1 2 3. unfold try_except, bind at 1, ret at 1 2.
    unfold bind at 1, deref. cbn [objects with_objects nth_error snd].
    apply String.eqb_neq in Hdiff. rewrite Hdiff.
    unfold bind at 1, Journalist_query_filter_by_username_one_or_none.
    cbn [table with_objects record_call with_calls]. rewrite Hfilter, Hk.
    match goal with |- context [load k ?s] =>
      destruct (load_found k s other) as (r & o & ->) end;
      [apply Hin | exact Hko |].
    exists o. unfold bind, flash, ret. cbn. reflexivity. }
  destruct E as (o & ->). cbn. rewrite Hc. repeat split.
Qed.

Lemma edit_user_username_taken_witness :
  fresh (st0 [admin; alice]) /\
  filter (has_username "root") (table (st0 [admin; alice])) = [admin] /\
  fst (edit_user service 2 (post [("username", "root")] [])
         (st0 [admin; alice]))
  = Ok (redirect "/edit/2") /\
  table (snd (edit_user service 2 (post [("username", "root")] [])
                (st0 [admin; alice])))
  = [admin; alice].
Proof.
  assert (Hf : fresh (st0 [admin; alice])) by repeat split.
  split; [exact Hf|]. split; [reflexivity|].
  destruct (edit_user_username_taken service 2
              (post [("username", "root")] []) (st0 [admin; alice])
              alice admin "root" 1 Hf eq_refl eq_refl eq_refl)
    as (H1 & _ & _ & H2); try reflexivity; try discriminate.
  split; [exact H1 | exact H2].
Defined.

(** X10. A request to /edit/<id> that is not a POST, for an id the
    database can hold as a key, changes nothing and renders the edit page
    with whatever the lookup found: the account's row, or no user at all
    when no row has that id (there is no 404). *)
Theorem edit_user_get_renders :
  forall (C : Collaborators) (user_id : Z) (req : Request) (st : St),
    0 <= user_id < 2 ^ 63 ->
    fresh st ->
    String.eqb (method req) "POST" = false ->
    let out := edit_user C user_id req st in
    fst out
    = Ok (render_template "edit_account.html"
            [("user", CUser (find (has_id user_id) (table st)));
             ("password", CStr (diceware C (rng st)))]) /\
    table (snd out) = table st /\
    flashes (snd out) = flashes st /\
    calls (snd out) = [Query_get (PInt user_id)].
Proof.
  intros C user_id req st _ (Ho & Hn & Hd & Hc) Hm out.
  unfold out, edit_user. unfold bind.
  rewrite (query_get_fresh (PInt user_id) user_id st Ho eq_refl), Hm.
  destruct (find (has_id user_id) (table st)) as [row|]; cbn;
    rewrite Hc; repeat split.
Qed.

Lemma edit_user_get_renders_witness :
  0 <= 9 < 2 ^ 63 /\
  fresh (st0 [admin; alice]) /\
  fst (edit_user service 9 (get [] []) (st0 [admin; alice]))
  = Ok (render_template "edit_account.html"
          [("user", CUser None);
           ("password",
            CStr "correct horse battery staple profanity oboe outlast")]).
Proof.
  split; [lia|]. split; [repeat split|].
  apply (edit_user_get_renders service 9 (get [] []) (st0 [admin; alice]));
    [lia | repeat split | reflexivity].
Defined.

(** X11. A POST /edit/<id> for an id that the database can hold as a key
    and that no row has is never answered with a 404 and never changes the
    table.  Unless the submitted username
    is rejected by the username policy (then the handler redirects with
    that complaint), the request dies with an [AttributeError] on the
    missing account. *)
Theorem edit_user_post_unknown_id :
  forall (C : Collaborators) (user_id : Z) (req : Request) (st : St),
    0 <= user_id < 2 ^ 63 ->
    fresh st ->
    method req = "POST" ->
    find (has_id user_id) (table st) = None ->
    let out := edit_user C user_id req st in
    http_status (fst out) <> 404 /\
    table (snd out) = table st /\
    calls (snd out) = [Query_get (PInt user_id)] /\
    ((forall u, assoc "username" (form req) = Some u ->
                u = EmptyString \/ username_complaint C u = None) ->
     exists attr,
       fst out
       = Raise (AttributeError
                  ("'NoneType' object has no attribute '" ++ attr ++ "'"))).
Proof.
  intros C user_id req st _ (Ho & Hn & Hd & Hc) Hm Hrow out.
  pattern out. match goal with |- ?P0 _ => set (P := P0) end.
  unfold out, edit_user. unfold bind at 1.
  rewrite (query_get_fresh (PInt user_id) user_id st Ho eq_refl), Hrow.
  rewrite Hm. cbn [String.eqb Ascii.eqb Bool.eqb].
  destruct (assoc "username" (form req)) as [u|] eqn:Hu.
  - destruct (truthy (Some u)) eqn:Ht.
    + unfold getitem. rewrite Hu, bind_ret. unfold check_username_acceptable.
      destruct (username_complaint C u) as [msg|] eqn:Hua.
      * unfold bind, try_except, raise, ret. cbn.
        subst P. cbn. rewrite Hc. repeat split; [discriminate|].
        intros H. destruct (H u eq_refl) as [-> | H']; [discriminate Ht|].
        rewrite Hua in H'. discriminate H'.
      * unfold bind, try_except, deref, raise, ret. cbn.
        subst P. cbn. rewrite Hc. repeat split; [discriminate|].
        intros _. now exists "username".
    + unfold setattr, bind, deref, ret. cbn.
      subst P. cbn. rewrite Hc. repeat split; [discriminate|].
      intros _. now exists "is_admin".
  - unfold setattr, bind, deref, ret. cbn.
    subst P. cbn. rewrite Hc. repeat split; [discriminate|].
    intros _. now exists "is_admin".
Qed.

Lemma edit_user_post_unknown_id_witness :
  0 <= 9 < 2 ^ 63 /\
  fresh (st0 [admin]) /\
  find (has_id 9) (table (st0 [admin])) = None /\
  http_status (fst (edit_user service 9 (post [("is_admin", "y")] [])
                      (st0 [admin])))
  <> 404.
Proof.
  split; [lia|]. split; [repeat split|]. split; [reflexivity|].
  apply (edit_user_post_unknown_id service 9 (post [("is_admin", "y")] [])
           (st0 [admin])); [lia | repeat split | reflexivity | reflexivity].
Defined.

(** ** Committing a change to one account *)

Lemma unique_NoDup (l : list string) : unique l = true <-> NoDup l.
Proof.
  induction l as [|x l IH]; cbn [unique].
  - split; [constructor | reflexivity].
  - rewrite andb_true_iff, negb_true_iff, IH. split.
    + intros [Hx Hl]. constructor; [|exact Hl]. intros Hin.
      assert (existsb (String.eqb x) l = true); [|congruence].
      apply existsb_exists. exists x. split; [exact Hin | apply String.eqb_refl].
    + intros H. inversion H as [|y l' Hx Hl]; subst. split; [|exact Hl].
      destruct (existsb (String.eqb x) l) eqn:E; [|reflexivity].
      apply existsb_exists in E as (y & Hin & Hy).
      apply String.eqb_eq in Hy. now subst.
Qed.

Lemma find_split (k : Z) (t : list Journalist) (row : Journalist) :
  find (has_id k) t = Some row ->
  exists l1 l2,
    t = (l1 ++ row :: l2)%list /\ forall r, In r l1 -> has_id k r = false.
Proof.
  induction t as [|r t IH]; cbn [find]; [discriminate|].
  destruct (has_id k r) eqn:Hr.
  - intros [= ->]. exists [], t. split; [reflexivity | intros r []].
  - intros H. destruct (IH H) as (l1 & l2 & -> & Hl1).
    exists (r :: l1), l2. split; [reflexivity|].
    intros r' [<- | Hin]; [exact Hr | now apply Hl1].
Qed.

Lemma keys_distinct_split (k : Z) (l1 l2 : list Journalist)
    (row : Journalist) :
  keys_distinct (l1 ++ row :: l2) -> id row = Some k ->
  forall r, In r (l1 ++ l2) -> has_id k r = false.
Proof.
  intros [_ Hnd] Hid r Hin. rewrite map_app in Hnd. cbn [map] in Hnd.
  apply NoDup_remove_2 in Hnd. unfold has_id.
  destruct (id r) as [i|] eqn:Hi; [|reflexivity].
  apply Z.eqb_neq. intros ->. apply Hnd. rewrite <- map_app, Hid, <- Hi.
  now apply in_map.
Qed.

Lemma map_unchanged {A} (g : A -> A) (l : list A) :
  (forall x, In x l -> g x = x) -> map g l = l.
Proof.
  intros H. rewrite <- (map_id l) at 2. apply map_ext_in. exact H.
Qed.

(** With distinct keys, flushing one changed object replaces its row and
    nothing else. *)
Lemma apply_updates_split (k : Z) (o row : Journalist)
    (t : list Journalist) :
  keys_distinct t ->
  find (has_id k) t = Some row ->
  id o = Some k ->
  exists l1 l2,
    t = (l1 ++ row :: l2)%list /\
    apply_updates [o] t = (l1 ++ o :: l2)%list /\
    forall r, In r (l1 ++ l2) -> has_id k r = false.
Proof.
  intros Hkeys Hrow Ho.
  pose proof (find_has_id _ _ _ Hrow) as Hid.
  destruct (find_split k t row Hrow) as (l1 & l2 & -> & _).
  pose proof (keys_distinct_split k l1 l2 row Hkeys Hid) as Hother.
  exists l1, l2. split; [reflexivity|]. split; [|exact Hother].
  rewrite (apply_updates_one k o _ Ho), map_app. cbn [map].
  assert (has_id k row = true) as ->
    by (unfold has_id; rewrite Hid; apply Z.eqb_refl).
  rewrite !map_unchanged; [reflexivity | |];
    intros r Hin; rewrite Hother; [reflexivity | | reflexivity |];
    apply in_or_app; [now right | now left].
Qed.

Lemma usernames_unique_replace (l1 l2 : list Journalist)
    (o row : Journalist) :
  usernames_unique (l1 ++ row :: l2) ->
  username o = username row \/
  existsb (has_username (username o)) (l1 ++ row :: l2) = false ->
  usernames_unique (l1 ++ o :: l2).
Proof.
  unfold usernames_unique. rewrite !unique_NoDup, !map_app. cbn [map].
  intros Hnd [-> | Hnew]; [exact Hnd|].
  pose proof (NoDup_remove_1 _ _ _ Hnd) as Hrest.
  apply NoDup_Add with (a := username o) (l := (map username l1 ++ map username l2)%list).
  - apply Add_app.
  - split; [exact Hrest|]. intros Hin.
    assert (existsb (has_username (username o)) (l1 ++ row :: l2) = true);
      [|congruence].
    rewrite <- map_app in Hin. apply in_map_iff in Hin as (r & Hr & Hin).
    apply existsb_exists. exists r. split.
    + apply in_app_or in Hin as [Hin | Hin]; apply in_or_app;
        [now left | right; now right].
    + unfold has_username. rewrite Hr. apply String.eqb_refl.
Qed.

Lemma find_replace_other (k k' : Z) (l1 l2 : list Journalist)
    (o row : Journalist) :
  k' <> k -> id o = Some k -> id row = Some k ->
  find (has_id k') (l1 ++ o :: l2) = find (has_id k') (l1 ++ row :: l2).
Proof.
  intros Hne Ho Hrow.
  assert (forall j, id j = Some k -> has_id k' j = false) as Hno.
  { intros j Hj. unfold has_id. rewrite Hj. now apply Z.eqb_neq. }
  induction l1 as [|r l1 IH]; cbn [app find].
  - now rewrite (Hno o Ho), (Hno row Hrow).
  - now rewrite IH.
Qed.

(** Committing the changes of one loaded account, when they keep the
    username or move to a free one: the commit succeeds, the account's row
    is replaced by the object, and every other id finds what it found. *)
Lemma commit_one_update_ok (st : St) (o row : Journalist) (k : Z) :
  objects st = [o] -> pending_new st = [] -> pending_deleted st = [] ->
  id o = Some k ->
  find (has_id k) (table st) = Some row ->
  keys_distinct (table st) ->
  usernames_unique (table st) ->
  username o = username row \/
  existsb (has_username (username o)) (table st) = false ->
  exists t',
    db_session_commit st
    = (Ok tt,
       with_pending [] []
         (with_objects [o] (with_table t' (record_call Session_commit st)))) /\
    find (has_id k) t' = Some o /\
    (forall k', k' <> k -> find (has_id k') t' = find (has_id k') (table st)) /\
    map id t' = map id (table st).
Proof.
  intros Ho Hn Hd Hid Hrow Hkeys Huniq Hname.
  exists (apply_updates [o] (table st)).
  rewrite (commit_one_update st o k Ho Hid Hn Hd).
  destruct (apply_updates_split k o row (table st) Hkeys Hrow Hid)
    as (l1 & l2 & Et & Eu & Hother).
  assert (usernames_unique (apply_updates [o] (table st))) as Hu.
  { rewrite Eu. apply (usernames_unique_replace l1 l2 o row);
      now rewrite <- Et. }
  unfold usernames_unique in Hu. rewrite Hu.
  split; [reflexivity|]. split; [|split].
  - apply (find_apply_updates k o row); assumption.
  - intros k' Hne. rewrite Eu, Et.
    apply (find_replace_other k k' l1 l2 o row Hne Hid).
    now apply (find_has_id k (table st)).
  - apply apply_updates_ids.
Qed.

(** ** Resetting a second factor *)

(** X12. A POST /reset-2fa-hotp with a well-formed secret for an existing
    account commits the change and redirects to the two-factor page of that
    uid: afterwards the account's row is an HOTP account with that secret
    and counter 0, its other columns are as before, and every other id
    finds the row it found before. *)
Theorem reset_two_factor_hotp_sets_secret :
  forall (C : Collaborators) (req : Request) (st : St)
         (uid secret : string) (k : Z) (row : Journalist),
    fresh st ->
    keys_distinct (table st) ->
    usernames_unique (table st) ->
    assoc "uid" (form req) = Some uid ->
    pk_of (PStr uid) = Some k ->
    find (has_id k) (table st) = Some row ->
    assoc "otp_secret" (form req) = Some secret ->
    secret <> EmptyString ->
    unhexlify_error secret = None ->
    let out := reset_two_factor_hotp C req st in
    fst out = Ok (redirect ("/2fa?uid=" ++ uid)) /\
    find (has_id k) (table (snd out))
    = Some (mkJournalist (id row) (username row) (pw_hash row) (is_admin row)
                         false (b32_of_hex C secret) 0) /\
    (forall k', k' <> k ->
                find (has_id k') (table (snd out))
                = find (has_id k') (table st)) /\
    calls (snd out) = [Query_get (PStr uid); Session_commit] /\
    flashes (snd out) = flashes st.
Proof.
  intros C req st uid secret k row (Ho & Hn & Hd & Hc) Hkeys Huniq Huid Hk Hrow
         Hs Hne Hhex out.
  pose proof (find_has_id _ _ _ Hrow) as Hid.
  set (o := mkJournalist (id row) (username row) (pw_hash row) (is_admin row)
                         false (b32_of_hex C secret) 0).
  destruct st as [t ob pn pd fl lg rn cs].
  cbn in Ho, Hn, Hd, Hc, Hrow, Hkeys, Huniq. subst.
  destruct (commit_one_update_ok
              (mkSt t [o] [] [] fl lg rn [Query_get (PStr uid)]) o row k
              eq_refl eq_refl eq_refl Hid Hrow Hkeys Huniq
              (or_introl eq_refl)) as (t' & Ec & Hfind & Hother & _).
  assert (E : out
              = (Ok (redirect ("/2fa?uid=" ++ uid)),
                 mkSt t' [o] [] [] fl lg rn
                      [Query_get (PStr uid); Session_commit])).
  { unfold out, reset_two_factor_hotp, getitem. rewrite Huid, Hs.
    assert (truthy (Some secret) = true) as ->.
    { cbn. apply negb_true_iff. now apply String.eqb_neq. }
    rewrite bind_ret. unfold bind at 1.
    rewrite (query_get_fresh (PStr uid) k (mkSt t [] [] [] fl lg rn [])
               eq_refl Hk).
    cbn [table]. rewrite Hrow.
    unfold try_except_else, set_hotp_secret, setattr, bind, deref, ret.
    rewrite Hhex. cbn.
    match goal with |- context [db_session_commit ?s] =>
      change s with (mkSt t [o] [] [] fl lg rn [Query_get (PStr uid)]) end.
    rewrite Ec. reflexivity. }
  rewrite E. cbn [fst snd table calls flashes]. repeat split; assumption.
Qed.

Lemma reset_two_factor_hotp_sets_secret_witness :
  fresh (st0 [admin; alice]) /\
  unhexlify_error "deadbeef" = None /\
  table (snd (reset_two_factor_hotp service
                (post [("uid", "2"); ("otp_secret", "deadbeef")] [])
                (st0 [admin; alice])))
  = [admin;
     mkJournalist (Some 2) "alice" "scrypt:a" false false "b32:deadbeef" 0] /\
  find (has_id 2)
       (table (snd (reset_two_factor_hotp service
                      (post [("uid", "2"); ("otp_secret", "deadbeef")] [])
                      (st0 [admin; alice]))))
  = Some (mkJournalist (Some 2) "alice" "scrypt:a" false false "b32:deadbeef" 0).
Proof.
  assert (Hf : fresh (st0 [admin; alice])) by repeat split.
  assert (Hk : keys_distinct (table (st0 [admin; alice]))).
  { split; repeat constructor; simpl; intuition discriminate. }
  split; [exact Hf|]. split; [reflexivity|]. split; [reflexivity|].
  apply (reset_two_factor_hotp_sets_secret service
           (post [("uid", "2"); ("otp_secret", "deadbeef")] [])
           (st0 [admin; alice]) "2" "deadbeef" 2 alice Hf Hk);
    try reflexivity. discriminate.
Defined.

(** X13. A POST /reset-2fa-totp for an existing account commits and
    redirects to the two-factor page of that uid: afterwards the account's
    row is a TOTP account with a newly drawn secret, its other columns are
    as before, and every other id finds the row it found before. *)
Theorem reset_two_factor_totp_regenerates :
  forall (C : Collaborators) (req : Request) (st : St)
         (uid : string) (k : Z) (row : Journalist),
    fresh st ->
    keys_distinct (table st) ->
    usernames_unique (table st) ->
    assoc "uid" (form req) = Some uid ->
    pk_of (PStr uid) = Some k ->
    find (has_id k) (table st) = Some row ->
    let out := reset_two_factor_totp C req st in
    fst out = Ok (redirect ("/2fa?uid=" ++ uid)) /\
    find (has_id k) (table (snd out))
    = Some (mkJournalist (id row) (username row) (pw_hash row) (is_admin row)
                         true (random_base32 C (rng st)) (hotp_counter row)) /\
    (forall k', k' <> k ->
                find (has_id k') (table (snd out))
                = find (has_id k') (table st)) /\
    calls (snd out) = [Query_get (PStr uid); Session_commit].
Proof.
  intros C req st uid k row (Ho & Hn & Hd & Hc) Hkeys Huniq Huid Hk Hrow out.
  pose proof (find_has_id _ _ _ Hrow) as Hid.
  destruct st as [t ob pn pd fl lg rn cs].
  cbn in Ho, Hn, Hd, Hc, Hrow, Hkeys, Huniq. subst. cbn [rng table].
  set (o := mkJournalist (id row) (username row) (pw_hash row) (is_admin row)
                         true (random_base32 C rn) (hotp_counter row)).
  destruct (commit_one_update_ok
              (mkSt t [o] [] [] fl lg (S rn) [Query_get (PStr uid)]) o row k
              eq_refl eq_refl eq_refl Hid Hrow Hkeys Huniq
              (or_introl eq_refl)) as (t' & Ec & Hfind & Hother & _).
  assert (E : out
              = (Ok (redirect ("/2fa?uid=" ++ uid)),
                 mkSt t' [o] [] [] fl lg (S rn)
                      [Query_get (PStr uid); Session_commit])).
  { unfold out, reset_two_factor_totp, getitem. rewrite Huid.
    rewrite bind_ret. unfold bind at 1.
    rewrite (query_get_fresh (PStr uid) k (mkSt t [] [] [] fl lg rn [])
               eq_refl Hk).
    cbn [table]. rewrite Hrow.
    unfold regenerate_totp_shared_secret, setattr, draw, bind, deref, ret.
    cbn.
    match goal with |- context [db_session_commit ?s] =>
      change s with (mkSt t [o] [] [] fl lg (S rn) [Query_get (PStr uid)]) end.
    rewrite Ec. reflexivity. }
  rewrite E. cbn [fst snd table calls]. repeat split; assumption.
Qed.

Lemma reset_two_factor_totp_regenerates_witness :
  fresh (st0 [admin; bob]) /\
  find (has_id 3)
       (table (snd (reset_two_factor_totp service (post [("uid", "3")] [])
                      (st0 [admin; bob]))))
  = Some (mkJournalist (Some 3) "bob" "scrypt:b" false true
                       "JBSWY3DPEHPK3PXP" 4).
Proof.
  assert (Hf : fresh (st0 [admin; bob])) by repeat split.
  assert (Hk : keys_distinct (table (st0 [admin; bob]))).
  { split; repeat constructor; simpl; intuition discriminate. }
  split; [exact Hf|].
  apply (reset_two_factor_totp_regenerates service (post [("uid", "3")] [])
           (st0 [admin; bob]) "3" 3 bob Hf Hk); reflexivity.
Defined.

(** X14. Neither reset handler checks that the account exists.  For a uid
    that no row has, POST /reset-2fa-totp, and POST /reset-2fa-hotp with a
    non-empty secret, end in an uncaught [AttributeError] (a 500, not a
    404); nothing is committed and the table is unchanged. *)
Theorem reset_two_factor_unknown_uid :
  forall (C : Collaborators) (req : Request) (st : St)
         (uid : string) (k : Z),
    fresh st ->
    assoc "uid" (form req) = Some uid ->
    pk_of (PStr uid) = Some k ->
    find (has_id k) (table st) = None ->
    (fst (reset_two_factor_totp C req st)
     = Raise (AttributeError "'NoneType' object has no attribute 'is_totp'") /\
     calls (snd (reset_two_factor_totp C req st)) = [Query_get (PStr uid)] /\
     table (snd (reset_two_factor_totp C req st)) = table st) /\
    (truthy (assoc "otp_secret" (form req)) = true ->
     fst (reset_two_factor_hotp C req st)
     = Raise (AttributeError
                "'NoneType' object has no attribute 'set_hotp_secret'") /\
     calls (snd (reset_two_factor_hotp C req st)) = [Query_get (PStr uid)] /\
     table (snd (reset_two_factor_hotp C req st)) = table st).
Proof.
  intros C req st uid k (Ho & Hn & Hd & Hc) Huid Hk Hrow.
  split.
  - assert (E : reset_two_factor_totp C req st
                = (Raise (AttributeError
                            "'NoneType' object has no attribute 'is_totp'"),
                   record_call (Query_get (PStr uid)) st)).
    { unfold reset_two_factor_totp, getitem. rewrite Huid.
      rewrite bind_ret. unfold bind at 1.
      rewrite (query_get_fresh (PStr uid) k st Ho Hk), Hrow. reflexivity. }
    rewrite E. cbn. rewrite Hc. repeat split.
  - intros Ht.
    assert (E : reset_two_factor_hotp C req st
                = (Raise (AttributeError
                            "'NoneType' object has no attribute 'set_hotp_secret'"),
                   record_call (Query_get (PStr uid)) st)).
    { unfold reset_two_factor_hotp, getitem. rewrite Huid.
      rewrite bind_ret. rewrite Ht. unfold bind at 1.
      rewrite (query_get_fresh (PStr uid) k st Ho Hk), Hrow. reflexivity. }
    rewrite E. cbn. rewrite Hc. repeat split.
Qed.

Lemma reset_two_factor_unknown_uid_witness :
  fresh (st0 [admin]) /\
  find (has_id 7) (table (st0 [admin])) = None /\
  http_status (fst (reset_two_factor_totp service (post [("uid", "7")] [])
                      (st0 [admin])))
  = 500.
Proof.
  assert (Hf : fresh (st0 [admin])) by repeat split.
  split; [exact Hf|]. split; [reflexivity|].
  destruct (reset_two_factor_unknown_uid service (post [("uid", "7")] [])
              (st0 [admin]) "7" 7 Hf eq_refl eq_refl eq_refl)
    as ((H & _) & _).
  now rewrite H.
Defined.

(** ** Renaming an account *)

Lemma filter_none (u : string) (t : list Journalist) :
  existsb (has_username u) t = false -> filter (has_username u) t = [].
Proof.
  induction t as [|r t IH]; cbn [existsb filter]; [reflexivity|].
  intros H. apply orb_false_iff in H as [-> H]. now apply IH.
Qed.

(** X15. A POST /edit/<id> with an acceptable username that no account
    holds renames the account: the change is committed, the account's row
    carries the new username and the submitted admin flag with its other
    columns as before, every other id finds the row it found before, and
    the edit page is rendered for the renamed account. *)
Theorem edit_user_renames :
  forall (C : Collaborators) (user_id : Z) (req : Request) (st : St)
         (row : Journalist) (u : string),
    fresh st ->
    keys_distinct (table st) ->
    usernames_unique (table st) ->
    method req = "POST" ->
    find (has_id user_id) (table st) = Some row ->
    assoc "username" (form req) = Some u ->
    u <> EmptyString ->
    username_complaint C u = None ->
    existsb (has_username u) (table st) = false ->
    let out := edit_user C user_id req st in
    let row' := set_is_admin (truthy (assoc "is_admin" (form req)))
                             (set_username u row) in
    fst out
    = Ok (render_template "edit_account.html"
            [("user", CUser (Some row'));
             ("password", CStr (diceware C (rng st)))]) /\
    find (has_id user_id) (table (snd out)) = Some row' /\
    (forall k, k <> user_id ->
               find (has_id k) (table (snd out)) = find (has_id k) (table st)) /\
    calls (snd out)
    = [Query_get (PInt user_id); Query_filter_by_username u; Session_add;
       Session_commit] /\
    flashes (snd out) = (flashes st ++ [("Account updated.", "success")])%list.
Proof.
  intros C user_id req st row u (Ho & Hn & Hd & Hc) Hkeys Huniq Hm Hrow Hu Hne
         Hua Hfree out row'.
  pose proof (find_has_id _ _ _ Hrow) as Hid.
  assert (Hdiff : String.eqb u (username row) = false).
  { apply String.eqb_neq. intros ->.
    assert (existsb (has_username (username row)) (table st) = true);
      [|congruence].
    apply existsb_exists. exists row. split.
    - now apply (find_some _ _ Hrow).
    - apply String.eqb_refl. }
  destruct st as [t ob pn pd fl lg rn cs].
  cbn in Ho, Hn, Hd, Hc, Hrow, Hkeys, Huniq, Hfree. subst. cbn [rng table].
  destruct (commit_one_update_ok
              (mkSt t [row'] [] [] fl lg rn
                    [Query_get (PInt user_id); Query_filter_by_username u;
                     Session_add])
              row' row user_id eq_refl eq_refl eq_refl Hid Hrow Hkeys Huniq
              (or_intror Hfree)) as (t' & Ec & Hfind & Hother & _).
  assert (E : out
              = (Ok (render_template "edit_account.html"
                       [("user", CUser (Some row'));
                        ("password", CStr (diceware C rn))]),
                 mkSt t' [row'] [] []
                      (fl ++ [("Account updated.", "success")]) lg (S rn)
                      [Query_get (PInt user_id); Query_filter_by_username u;
                       Session_add; Session_commit])).
  { unfold out, edit_user. unfold bind at 1.
    rewrite (query_get_fresh (PInt user_id) user_id
               (mkSt t [] [] [] fl lg rn []) eq_refl eq_refl).
    cbn [table]. rewrite Hrow.
    rewrite Hm. cbn [String.eqb Ascii.eqb Bool.eqb]. rewrite Hu.
    assert (truthy (Some u) = true) as ->.
    { cbn. apply negb_true_iff. now apply String.eqb_neq. }
    unfold getitem. rewrite Hu, bind_ret.
    unfold check_username_acceptable. rewrite Hua.
    unfold Journalist_query_filter_by_username_one_or_none.
    unfold setattr, commit_account_changes, bind, try_except, try_except_else,
      deref, ret.
    cbn. rewrite Hdiff. cbn. rewrite (filter_none u t Hfree). cbn.
    unfold db_session_is_modified. cbn. rewrite Hid, Hrow. cbn.
    rewrite Hdiff. cbn. rewrite Hid. cbn.
    match goal with |- context [db_session_commit ?s] =>
      change s with (mkSt t [row'] [] [] fl lg rn
                          [Query_get (PInt user_id);
                           Query_filter_by_username u; Session_add]) end.
    rewrite Ec. reflexivity. }
  rewrite E. cbn [fst snd table calls flashes]. repeat split; assumption.
Qed.

Lemma edit_user_renames_witness :
  fresh (st0 [admin; alice]) /\
  existsb (has_username "carol") (table (st0 [admin; alice])) = false /\
  table (snd (edit_user service 2 (post [("username", "carol")] [])
                (st0 [admin; alice])))
  = [admin; mkJournalist (Some 2) "carol" "scrypt:a" false true "BBBB" 0] /\
  find (has_id 2)
       (table (snd (edit_user service 2 (post [("username", "carol")] [])
                      (st0 [admin; alice]))))
  = Some (mkJournalist (Some 2) "carol" "scrypt:a" false true "BBBB" 0).
Proof.
  assert (Hf : fresh (st0 [admin; alice])) by repeat split.
  assert (Hk : keys_distinct (table (st0 [admin; alice]))).
  { split; repeat constructor; simpl; intuition discriminate. }
  split; [exact Hf|]. split; [reflexivity|]. split; [reflexivity|].
  apply (edit_user_renames service 2 (post [("username", "carol")] [])
           (st0 [admin; alice]) alice "carol" Hf Hk);
    try reflexivity. discriminate.
Defined.

(** ** More edge cases *)

(** X16. For every id that the database can hold as a key and that no
    row has, both password-reset handlers go on to set the password of a
    missing account: the request ends in an uncaught [AttributeError], the
    status is never 404, and the table is unchanged. *)
Theorem set_password_unknown_id :
  forall (C : Collaborators) (user_id : Z) (req : Request) (st : St),
    0 <= user_id < 2 ^ 63 ->
    fresh st ->
    find (has_id user_id) (table st) = None ->
    fst (set_password C user_id req st)
    = Raise (AttributeError
               "'NoneType' object has no attribute 'set_password'") /\
    http_status (fst (set_password C user_id req st)) <> 404 /\
    table (snd (set_password C user_id req st)) = table st /\
    new_password C user_id req st = set_password C user_id req st.
Proof.
  intros C user_id req st _ (Ho & Hn & Hd & Hc) Hrow.
  assert (E : set_password C user_id req st
              = (Raise (AttributeError
                          "'NoneType' object has no attribute 'set_password'"),
                 record_call (Query_get (PInt user_id)) st)).
  { unfold set_password. unfold bind at 1, try_except.
    rewrite (query_get_fresh (PInt user_id) user_id st Ho eq_refl), Hrow.
    reflexivity. }
  assert (N : new_password C user_id req st = set_password C user_id req st)
    by reflexivity.
  rewrite N, E. cbn. repeat split. discriminate.
Qed.

Lemma set_password_unknown_id_witness :
  0 <= 5 < 2 ^ 63 /\
  fresh (st0 [admin; alice]) /\
  find (has_id 5) (table (st0 [admin; alice])) = None /\
  http_status (fst (set_password service 5 (post [("password", "x")] [])
                      (st0 [admin; alice])))
  <> 404.
Proof.
  split; [lia|]. split; [repeat split|]. split; [reflexivity|].
  apply (set_password_unknown_id service 5 (post [("password", "x")] [])
           (st0 [admin; alice])); [lia | repeat split | reflexivity].
Defined.

(** X17. [add_user] has no [except] clause for the [TypeError] of a
    malformed HOTP secret: a POST /add with [is_hotp] set and an odd-length
    or non-hexadecimal [otp_secret], otherwise acceptable, ends in that
    uncaught [TypeError]; nothing is added to the session, no call is made
    on the persistence layer, and the table is unchanged. *)
Theorem add_user_malformed_hotp_secret_raises :
  forall (C : Collaborators) (req : Request) (st : St)
         (un pw secret msg : string),
    validate_on_submit C req = true ->
    assoc "username" (form req) = Some un ->
    assoc "password" (form req) = Some pw ->
    truthy (assoc "is_hotp" (form req)) = true ->
    assoc "otp_secret" (form req) = Some secret ->
    username_complaint C un = None ->
    password_acceptable C pw = true ->
    unhexlify_error secret = Some msg ->
    let out := add_user C req st in
    fst out = Raise (TypeError msg) /\
    http_status (fst out) = 500 /\
    calls (snd out) = calls st /\
    pending_new (snd out) = pending_new st /\
    flashes (snd out) = flashes st /\
    table (snd out) = table st.
Proof.
  intros C req st un pw secret msg Hv Hu Hp Hh Hs Hua Hpa Hbad out.
  assert (Ht : truthy (Some secret) = true).
  { destruct secret; [discriminate Hbad | reflexivity]. }
  assert (E : out
              = (Raise (TypeError msg),
                 with_objects
                   (objects st
                    ++ [mkJournalist None un (hash_password C pw)
                          (truthy (assoc "is_admin" (form req))) true
                          (random_base32 C (rng st)) 0])
                   (with_rng (S (rng st)) st))).
  { unfold out, add_user. rewrite Hv. unfold getitem. rewrite Hu, Hp, Hh, Hs.
    rewrite !bind_ret. unfold bind at 1, try_except. unfold bind at 1.
    unfold Journalist_init, check_username_acceptable, draw.
    rewrite Hua, Hpa, Ht. unfold set_hotp_secret, bind, deref, ret, raise.
    cbn [objects with_objects with_rng].
    rewrite nth_error_app2, Nat.sub_diag by lia. cbn [nth_error].
    rewrite Hbad. reflexivity. }
  rewrite E. cbn. repeat split.
Qed.

Lemma add_user_malformed_hotp_secret_raises_witness :
  unhexlify_error "abc" = Some "Odd-length string" /\
  fst (add_user service
         (post [("username", "carol"); ("password", "x"); ("is_hotp", "y");
                ("otp_secret", "abc")] [])
         (st0 [admin]))
  = Raise (TypeError "Odd-length string").
Proof.
  split; [reflexivity|].
  apply (add_user_malformed_hotp_secret_raises service
           (post [("username", "carol"); ("password", "x"); ("is_hotp", "y");
                  ("otp_secret", "abc")] [])
           (st0 [admin]) "carol" "x" "abc" "Odd-length string");
    reflexivity.
Defined.

(** X18. With [is_hotp] set and a well-formed, non-empty [otp_secret], a
    successful POST /add creates an HOTP account: the row added to the table
    has [is_totp] false, the submitted secret and counter 0, and the answer
    is the redirect to the new account's two-factor page. *)
Theorem add_user_creates_hotp_account :
  forall (C : Collaborators) (req : Request) (st : St)
         (un pw secret : string),
    fresh st ->
    validate_on_submit C req = true ->
    assoc "username" (form req) = Some un ->
    assoc "password" (form req) = Some pw ->
    truthy (assoc "is_hotp" (form req)) = true ->
    assoc "otp_secret" (form req) = Some secret ->
    secret <> EmptyString ->
    unhexlify_error secret = None ->
    username_complaint C un = None ->
    password_acceptable C pw = true ->
    usernames_unique (table st) ->
    existsb (has_username un) (table st) = false ->
    let out := add_user C req st in
    fst out
    = Ok (redirect ("/2fa?uid=" ++ str_of_Z (fresh_id (table st)))) /\
    table (snd out)
    = (table st
       ++ [mkJournalist (Some (fresh_id (table st))) un (hash_password C pw)
                        (truthy (assoc "is_admin" (form req))) false
                        (b32_of_hex C secret) 0])%list.
Proof.
  intros C req st un pw secret (Ho & Hn & Hd & Hc) Hv Hu Hp Hh Hs Hne Hhex Hua
         Hpa Huniq Hnew out.
  assert (Ht : truthy (Some secret) = true).
  { cbn. apply negb_true_iff. now apply String.eqb_neq. }
  pose proof (unique_snoc un (table st) Huniq Hnew) as Hsnoc.
  assert (E : out
              = (Ok (redirect ("/2fa?uid=" ++ str_of_Z (fresh_id (table st)))),
                 let row := mkJournalist (Some (fresh_id (table st))) un
                              (hash_password C pw)
                              (truthy (assoc "is_admin" (form req))) false
                              (b32_of_hex C secret) 0 in
                 mkSt (table st ++ [row]) [row] [] [] (flashes st) (log st)
                      (S (rng st)) [Session_add; Session_commit])).
  { unfold out, add_user. rewrite Hv. unfold getitem. rewrite Hu, Hp, Hh, Hs.
    rewrite !bind_ret.
    destruct st as [t o pn pd fl lg rn cs].
    cbn in Ho, Hn, Hd, Hc, Hsnoc. subst.
    unfold bind, ret, try_except.
    unfold Journalist_init, check_username_acceptable, draw, bind, ret.
    rewrite Hua, Hpa, Ht.
    unfold set_hotp_secret, setattr, bind, deref, ret. cbn.
    rewrite Hhex. cbn.
    erewrite commit_one_insert; [| reflexivity ..].
    st_simpl. cbn [username]. rewrite Hsnoc. cbn. reflexivity. }
  rewrite E. cbn. split; reflexivity.
Qed.

Lemma add_user_creates_hotp_account_witness :
  fresh (st0 [admin]) /\
  unhexlify_error "deadbeef" = None /\
  table (snd (add_user service
                (post [("username", "carol"); ("password", "x");
                       ("is_hotp", "y"); ("otp_secret", "deadbeef")] [])
                (st0 [admin])))
  = [admin;
     mkJournalist (Some 2) "carol" "scrypt:x" false false "b32:deadbeef" 0].
Proof.
  split; [repeat split|]. split; [reflexivity|].
  apply (add_user_creates_hotp_account service
           (post [("username", "carol"); ("password", "x");
                  ("is_hotp", "y"); ("otp_secret", "deadbeef")] [])
           (st0 [admin]) "carol" "x" "deadbeef");
    try reflexivity; [repeat split | discriminate].
Defined.

(** X19. A field that a handler reads with [request.form[...]] or
    [request.args[...]] is required: when it is missing the answer is a 400
    for that key and the state is exactly as before.  This holds for [uid]
    in [new_user_two_factor] and both reset handlers, and for [username]
    and then [password] in [add_user] once the form has validated. *)
Theorem missing_field_is_bad_request :
  forall (C : Collaborators) (req : Request) (st : St),
    (assoc "uid" (args req) = None ->
     new_user_two_factor C req st = (Raise (BadRequestKeyError "uid"), st)) /\
    (assoc "uid" (form req) = None ->
     reset_two_factor_totp C req st = (Raise (BadRequestKeyError "uid"), st) /\
     reset_two_factor_hotp C req st = (Raise (BadRequestKeyError "uid"), st)) /\
    (validate_on_submit C req = true ->
     assoc "username" (form req) = None ->
     add_user C req st = (Raise (BadRequestKeyError "username"), st)) /\
    (validate_on_submit C req = true ->
     assoc "username" (form req) <> None ->
     assoc "password" (form req) = None ->
     add_user C req st = (Raise (BadRequestKeyError "password"), st)) /\
    http_status (Raise (BadRequestKeyError "uid")) = 400.
Proof.
  intros C req st. repeat apply conj.
  - intros H. unfold new_user_two_factor, getitem. now rewrite H.
  - intros H. split.
    + unfold reset_two_factor_totp, getitem. now rewrite H.
    + unfold reset_two_factor_hotp, getitem. now rewrite H.
  - intros Hv H. unfold add_user, getitem. now rewrite Hv, H.
  - intros Hv Hu H. unfold add_user, getitem. rewrite Hv, H.
    destruct (assoc "username" (form req)); [reflexivity | congruence].
  - reflexivity.
Qed.

Lemma missing_field_is_bad_request_witness :
  assoc "uid" (form (post [] [])) = None /\
  reset_two_factor_totp service (post [] []) (st0 [admin])
  = (Raise (BadRequestKeyError "uid"), st0 [admin]).
Proof.
  split; [reflexivity|].
  destruct (missing_field_is_bad_request service (post [] []) (st0 [admin]))
    as (_ & H & _).
  apply H. reflexivity.
Defined.
